(** * File upload service: a shallow embedding of [backend/main.py]

    The development follows the layout of the Python package:
    - [Pathlib]  : the part of [pathlib.PurePosixPath] used by the handler
                   ([Path(name).suffix]);
    - [models]   : the [File] table row and the transient ORM object;
    - [schemas]  : the wire-facing response records;
    - [database] : the world (upload directory, [files] table, session)
                   and the error-and-state monad the handlers run in;
    - [main]     : [get_db], [upload_document], [get_files] and the
                   routing glue around them.

    Bytes are [Byte.byte], text is [string], integers are [Z], the upload
    directory is a [gmap] from file names to contents. *)

From Stdlib Require Import ZArith List String Ascii Lia Permutation Sorted DecimalString.
From stdpp Require Import gmap strings list.

Local Open Scope Z_scope.

(** ** pathlib *)

Module Pathlib.

(** [str.split(sep)] for a one-character separator. *)
Fixpoint split (sep : ascii) (s : string) : list string :=
  match s with
  | EmptyString => [EmptyString]
  | String c s' =>
      if Ascii.eqb c sep then EmptyString :: split sep s'
      else match split sep s' with
           | [] => [String c EmptyString]
           | hd :: tl => String c hd :: tl
           end
  end.

(** [str.rfind(c)]; Python's [-1] is [None]. *)
Fixpoint rfind (c : ascii) (s : string) : option nat :=
  match s with
  | EmptyString => None
  | String a s' =>
      match rfind c s' with
      | Some i => Some (S i)
      | None => if Ascii.eqb a c then Some 0%nat else None
      end
  end.

(** The slice [s[i:]]. *)
Fixpoint drop (i : nat) (s : string) : string :=
  match i, s with
  | O, _ => s
  | S i', String _ s' => drop i' s'
  | S _, EmptyString => EmptyString
  end.

(** The components kept by [PurePosixPath._parse_args]: the pieces between
    ["/"] that are neither empty nor ["."]. *)
Definition parts (p : string) : list string :=
  List.filter (fun x => negb (String.eqb x "" || String.eqb x "."))
              (split "/"%char p).

(** [PurePath.name]: the final component, [""] when there is none. *)
Definition name (p : string) : string := List.last (parts p) "".

(** [PurePath.suffix] (CPython up to 3.13):
<<
    name = self.name
    i = name.rfind('.')
    if 0 < i < len(name) - 1: return name[i:]
    else: return ''
>> *)
Definition suffix (p : string) : string :=
  let name := name p in
  match rfind "."%char name with
  | Some i =>
      if (0 <? Z.of_nat i) && (Z.of_nat i <? Z.of_nat (String.length name) - 1)
      then drop i name
      else ""
  | None => ""
  end.

End Pathlib.

(** ** models.py *)

Module models.

(** A row of the [files] table. [id] is the integer primary key,
    [system_filename] carries the [unique=True] constraint, [uploaded_at]
    is filled from [default=datetime.utcnow] when the row is inserted. *)
Record File := mkFile {
  id : Z;
  original_filename : string;
  system_filename : string;
  file_size_bytes : Z;
  uploaded_at : Z
}.

(** The transient object built by
    [models.File(original_filename=.., system_filename=.., file_size_bytes=..)]:
    neither [id] nor [uploaded_at] is set before the flush. *)
Record NewFile := mkNewFile {
  new_original_filename : string;
  new_system_filename : string;
  new_file_size_bytes : Z
}.

End models.

(** ** schemas.py *)

Module schemas.

Record FileUploadResponse := mkFileUploadResponse {
  message : string;
  file_id : Z
}.

Record FileMetadata := mkFileMetadata {
  id : Z;
  original_filename : string;
  system_filename : string;
  file_size_bytes : Z;
  uploaded_at : option Z
}.

Record FileListResponse := mkFileListResponse {
  files : list FileMetadata;
  count : Z
}.

(** [FileMetadata.from_orm(file)] with [from_attributes = True]: every
    field is read from the attribute of the same name. *)
Definition from_orm (file : models.File) : FileMetadata :=
  {| id := models.id file;
     original_filename := models.original_filename file;
     system_filename := models.system_filename file;
     file_size_bytes := models.file_size_bytes file;
     uploaded_at := Some (models.uploaded_at file) |}.

End schemas.

(** ** Exceptions *)

(** The exception classes the handlers distinguish. All of them derive
    from Python's [Exception]; [OtherException] stands for any class that
    is neither an [HTTPException] nor a [SQLAlchemyError] (an [OSError]
    from the file system, a [MemoryError], ...). *)
Inductive exn :=
| HTTPException (status_code : Z) (detail : string)
| SQLAlchemyError (msg : string)
| OtherException (msg : string)
| RequestValidationError.

Definition string_of_Z (z : Z) : string :=
  DecimalString.NilZero.string_of_int (Z.to_int z).

(** [str(e)]. Starlette's [HTTPException.__str__] is
    [f"{self.status_code}: {self.detail}"]. *)
Definition str (e : exn) : string :=
  match e with
  | HTTPException status_code detail =>
      string_of_Z status_code +:+ ": " +:+ detail
  | SQLAlchemyError msg => msg
  | OtherException msg => msg
  | RequestValidationError => "Field required"
  end.

(** ** database.py: the world the handlers act on *)

Module database.

(** Observable effects, in the order they happen. *)
Inductive Event :=
| SessionOpened
| SessionClosed
| FileWritten (name : string) (content : list Byte.byte)
| Committed (rows : list models.File)
| RolledBack
| Unlinked (name : string).

(** The persistent state and the request-scoped session.
    - [uploaded_files]: the content of [UPLOAD_DIR], by file name;
    - [files_table]: the committed rows of [files], in rowid order;
    - [session_new]: objects passed to [db.add] and not yet flushed;
    - [log]: the effects performed so far, oldest first. *)
Record World := mkWorld {
  uploaded_files : gmap string (list Byte.byte);
  files_table : list models.File;
  session_new : list models.NewFile;
  log : list Event
}.

Definition set_uploaded_files (d : gmap string (list Byte.byte)) (w : World) : World :=
  mkWorld d (files_table w) (session_new w) (log w).
Definition set_files_table (t : list models.File) (w : World) : World :=
  mkWorld (uploaded_files w) t (session_new w) (log w).
Definition set_session_new (p : list models.NewFile) (w : World) : World :=
  mkWorld (uploaded_files w) (files_table w) p (log w).
Definition emit (e : Event) (w : World) : World :=
  mkWorld (uploaded_files w) (files_table w) (session_new w) (log w ++ [e]).

(** What a failing store call raises: a [SQLAlchemyError] (the driver's
    errors are wrapped into one) or some other exception. *)
Inductive db_fault :=
| StoreFault (msg : string)
| OtherFault (msg : string).

Definition exn_of_fault (f : db_fault) : exn :=
  match f with
  | StoreFault msg => SQLAlchemyError msg
  | OtherFault msg => OtherException msg
  end.

(** The choices the environment makes during one request: the random
    token, the clock, and which of the calls inside the handlers' [try]
    blocks fail. A failure of [open] stands for whatever the operating
    system refuses: a directory that is gone, a full disk, a name longer
    than the file system allows or one with a NUL in it. The calls made
    by the [except] clauses themselves ([db.rollback], [Path.exists],
    [Path.unlink]) and [db.close] are taken to succeed. *)
Record Env := mkEnv {
  uuid4 : string;                           (* str(uuid.uuid4()) *)
  utcnow : Z;                               (* datetime.utcnow() *)
  read_fault : option string;               (* await file.read() raises *)
  open_fault : option string;               (* open(file_path, "wb") raises *)
  write_fault : option (nat * string);      (* f.write raises, n bytes stored *)
  commit_fault : option db_fault;           (* db.commit() raises *)
  refresh_fault : option db_fault;          (* db.refresh() raises *)
  query_fault : option db_fault             (* db.query(..).all() raises *)
}.

(** *** The monad: state plus exceptions *)

Inductive result (A : Type) :=
| Raise (e : exn)
| Return (a : A).
Arguments Raise {A} e.
Arguments Return {A} a.

Definition M (A : Type) : Type := World -> result A * World.

#[global] Instance M_ret : MRet M := fun A a w => (Return a, w).
#[global] Instance M_bind : MBind M := fun A B k m w =>
  match m w with
  | (Return a, w') => k a w'
  | (Raise e, w') => (Raise e, w')
  end.

Definition raise {A} (e : exn) : M A := fun w => (Raise e, w).

Definition pass : M unit := mret tt.

(** [try: body except Exception as e: handler e]. *)
Definition try_except {A} (body : M A) (handler : exn -> M A) : M A := fun w =>
  match body w with
  | (Raise e, w') => handler e w'
  | (Return a, w') => (Return a, w')
  end.

(** [try: body finally: cleanup]. *)
Definition try_finally {A} (body : M A) (cleanup : World -> World) : M A := fun w =>
  let '(r, w') := body w in (r, cleanup w').

(** *** The store *)

(** The largest rowid of a SQLite table (a signed 64-bit integer). *)
Definition MAX_ROWID : Z := 9223372036854775807.

(** The rowid SQLite gives a new row of a table declared without
    AUTOINCREMENT: 1 in an empty table, otherwise one above the largest
    rowid in use, whatever its sign. This is the engine's rule while the
    largest rowid is below [MAX_ROWID]; at the limit the engine tries
    random unused rowids instead, which this definition does not follow,
    so the statements about the values of ids carry the bound as a
    hypothesis. *)
Definition next_id (rows : list models.File) : Z :=
  match List.map models.id rows with
  | [] => 1
  | i :: ids => 1 + fold_right Z.max i ids
  end.

Definition has_system_filename (name : string) (rows : list models.File) : bool :=
  existsb (fun r => String.eqb (models.system_filename r) name) rows.

(** The first line of [str(e)] for the [IntegrityError] of a duplicate
    [system_filename]; the real text goes on with the SQL statement, its
    parameters and a documentation link. *)
Definition unique_violation : string :=
  "(sqlite3.IntegrityError) UNIQUE constraint failed: files.system_filename".

(** The INSERTs of a flush, in [db.add] order; the first one that breaks
    the uniqueness of [system_filename] aborts the whole transaction. *)
Fixpoint flush (now : Z) (new : list models.NewFile) (rows : list models.File)
  : result (list models.File) :=
  match new with
  | [] => Return rows
  | o :: new' =>
      if has_system_filename (models.new_system_filename o) rows
      then Raise (SQLAlchemyError unique_violation)
      else flush now new'
             (rows ++ [models.mkFile (next_id rows)
                         (models.new_original_filename o)
                         (models.new_system_filename o)
                         (models.new_file_size_bytes o)
                         now])
  end.

(** The outcome of [db.commit()] for the pending objects [new]. *)
Definition commit_outcome (env : Env) (new : list models.NewFile)
    (rows : list models.File) : result (list models.File) :=
  match commit_fault env with
  | Some f => Raise (exn_of_fault f)
  | None => flush (utcnow env) new rows
  end.

(** [SessionLocal()] and [db.close()]. *)
Definition SessionLocal (w : World) : World :=
  emit SessionOpened (set_session_new [] w).
Definition db_close (w : World) : World :=
  emit SessionClosed (set_session_new [] w).

Definition db_add (o : models.NewFile) : M unit := fun w =>
  (Return tt, set_session_new (session_new w ++ [o]) w).

Definition db_commit (env : Env) : M unit := fun w =>
  match commit_outcome env (session_new w) (files_table w) with
  | Raise e => (Raise e, w)
  | Return rows =>
      (Return tt,
       emit (Committed (drop (length (files_table w)) rows))
            (set_session_new [] (set_files_table rows w)))
  end.

Definition db_rollback : M unit := fun w =>
  (Return tt, emit RolledBack (set_session_new [] w)).

(** [db.refresh(o)]: reload the row of a persistent object. The object is
    found through its unique [system_filename]. *)
Definition db_refresh (env : Env) (o : models.NewFile) : M models.File := fun w =>
  match refresh_fault env with
  | Some f => (Raise (exn_of_fault f), w)
  | None =>
      match List.find (fun r => String.eqb (models.system_filename r)
                                  (models.new_system_filename o))
                      (files_table w) with
      | Some r => (Return r, w)
      | None => (Raise (SQLAlchemyError "Could not refresh instance"), w)
      end
  end.

(** Insertion of a row into a list already ordered by [uploaded_at]
    descending; rows with equal timestamps keep their relative order. *)
Fixpoint insert_desc (r : models.File) (l : list models.File) : list models.File :=
  match l with
  | [] => [r]
  | x :: l' =>
      if models.uploaded_at x <? models.uploaded_at r
      then r :: x :: l'
      else x :: insert_desc r l'
  end.

Definition order_by_uploaded_at_desc (rows : list models.File) : list models.File :=
  fold_right insert_desc [] rows.

(** [db.query(models.File).order_by(models.File.uploaded_at.desc()).all()];
    [autoflush=False], so nothing pending is written. *)
Definition db_query_all (env : Env) : M (list models.File) := fun w =>
  match query_fault env with
  | Some f => (Raise (exn_of_fault f), w)
  | None => (Return (order_by_uploaded_at_desc (files_table w)), w)
  end.

(** *** The upload directory *)

(** [await file.read()]. *)
Definition file_read (env : Env) (content : list Byte.byte) : M (list Byte.byte) := fun w =>
  match read_fault env with
  | Some msg => (Raise (OtherException msg), w)
  | None => (Return content, w)
  end.

(** [with open(file_path, "wb") as f: f.write(content)]: the file is
    created or truncated, then filled. *)
Definition open_wb_write (env : Env) (name : string) (content : list Byte.byte)
  : M unit := fun w =>
  match open_fault env with
  | Some msg => (Raise (OtherException msg), w)
  | None =>
      match write_fault env with
      | Some (n, msg) =>
          (Raise (OtherException msg),
           emit (FileWritten name (take n content))
                (set_uploaded_files (<[name := take n content]> (uploaded_files w)) w))
      | None =>
          (Return tt,
           emit (FileWritten name content)
                (set_uploaded_files (<[name := content]> (uploaded_files w)) w))
      end
  end.

Definition path_exists (name : string) : M bool := fun w =>
  (Return (bool_decide (is_Some (uploaded_files w !! name))), w).

Definition path_unlink (name : string) : M unit := fun w =>
  (Return tt, emit (Unlinked name)
                (set_uploaded_files (delete name (uploaded_files w)) w)).

End database.

(** ** main.py *)

Module main.
Import database.

Definition HTTP_200_OK : Z := 200.
Definition HTTP_201_CREATED : Z := 201.
Definition HTTP_400_BAD_REQUEST : Z := 400.
Definition HTTP_422_UNPROCESSABLE_ENTITY : Z := 422.
Definition HTTP_500_INTERNAL_SERVER_ERROR : Z := 500.

Definition MAX_FILE_SIZE : Z := 50 * 1024 * 1024.

(** Starlette's [UploadFile]: the client-supplied name (optional) and the
    bytes of the part, which [await file.read()] returns. *)
Record UploadFile := mkUploadFile {
  filename : option string;
  file : list Byte.byte
}.

(** Python truthiness of [file.filename]: [None] and [""] are falsy. *)
Definition truthy (s : option string) : bool :=
  match s with
  | Some (String _ _) => true
  | _ => false
  end.

(** [get_db]: a session is created, handed to the request ([yield db]) and
    closed in the [finally] clause. *)
Definition get_db {A} (request : M A) : M A := fun w =>
  try_finally request db_close (SessionLocal w).

(** [upload_document]. The name [system_filename] is written here ahead of
    the [try] block because the [except SQLAlchemyError] clause refers to
    [file_path]; it depends on the request and the token only, and a
    [SQLAlchemyError] can only come from the store calls, which follow
    its assignment. *)
Definition upload_document (env : Env) (file_ : UploadFile)
  : M schemas.FileUploadResponse :=
  if negb (truthy (filename file_)) then
    raise (HTTPException HTTP_400_BAD_REQUEST "No filename provided")
  else
    let file_filename := default "" (filename file_) in
    let file_extension := Pathlib.suffix file_filename in
    let unique_id := uuid4 env in
    let system_filename := unique_id +:+ file_extension in
    try_except
      (content ← file_read env (file file_);
       if Z.of_nat (length content) >? MAX_FILE_SIZE then
         raise (HTTPException HTTP_400_BAD_REQUEST
                  ("File too large. Maximum size is "
                   +:+ string_of_Z (MAX_FILE_SIZE / (1024 * 1024)) +:+ " MB"))
       else if Z.of_nat (length content) =? 0 then
         raise (HTTPException HTTP_400_BAD_REQUEST "Empty file is not allowed")
       else
         open_wb_write env system_filename content;;
         let new_file :=
           models.mkNewFile file_filename system_filename
                            (Z.of_nat (length content)) in
         db_add new_file;;
         db_commit env;;
         new_file ← db_refresh env new_file;
         mret (schemas.mkFileUploadResponse "File uploaded successfully"
                 (models.id new_file)))
      (fun e =>
         match e with
         | SQLAlchemyError _ =>
             db_rollback;;
             present ← path_exists system_filename;
             (if (present : bool) then path_unlink system_filename else pass);;
             raise (HTTPException HTTP_500_INTERNAL_SERVER_ERROR
                      ("Database error: " +:+ str e))
         | _ =>
             db_rollback;;
             raise (HTTPException HTTP_500_INTERNAL_SERVER_ERROR
                      ("Error uploading file: " +:+ str e))
         end).

(** [get_files]. *)
Definition get_files (env : Env) : M schemas.FileListResponse :=
  try_except
    (files ← db_query_all env;
     let file_metadata_list := List.map schemas.from_orm files in
     mret (schemas.mkFileListResponse file_metadata_list
             (Z.of_nat (length file_metadata_list))))
    (fun e =>
       match e with
       | SQLAlchemyError _ =>
           raise (HTTPException HTTP_500_INTERNAL_SERVER_ERROR
                    ("Database error: " +:+ str e))
       | _ =>
           raise (HTTPException HTTP_500_INTERNAL_SERVER_ERROR
                    ("Error retrieving files: " +:+ str e))
       end).

(** *** Routing *)

Inductive Body :=
| UploadBody (r : schemas.FileUploadResponse)
| FilesBody (r : schemas.FileListResponse)
| DetailBody (detail : string).

Record Response := mkResponse {
  status : Z;
  body : Body
}.

(** The framework's rendering of a handler's outcome: the route's
    [status_code] on return, the exception's own status for an
    [HTTPException], 422 for a request that fails parameter validation. *)
Definition respond {A} (status_code : Z) (encode : A -> Body) (r : result A)
  : Response :=
  match r with
  | Return a => mkResponse status_code (encode a)
  | Raise (HTTPException s d) => mkResponse s (DetailBody d)
  | Raise RequestValidationError =>
      mkResponse HTTP_422_UNPROCESSABLE_ENTITY (DetailBody "Field required")
  | Raise _ =>
      mkResponse HTTP_500_INTERNAL_SERVER_ERROR (DetailBody "Internal Server Error")
  end.

(** The two routes that depend on [get_db]. The multipart body of an
    upload may lack the [file] field ([None]). When it has one, [filename]
    is the [filename] parameter of its Content-Disposition header: [None]
    when the header has no such parameter, in which case the multipart
    parser yields a text field and not an [UploadFile]; [Some ""] when
    the parameter is there and empty. *)
Inductive Request :=
| POST_upload_document (part : option UploadFile)
| GET_files.

(** [file: UploadFile = File(...)] declares a required parameter of type
    [UploadFile]: the dependency [get_db] is resolved first, then a
    request without the field, or with a text field in its place, fails
    validation and is rejected before the handler runs. The handler is
    called on every file part that has a [filename] parameter. *)
Definition app (env : Env) (req : Request) (w : World) : Response * World :=
  match req with
  | POST_upload_document part =>
      let '(r, w') :=
        get_db (match part with
                | Some file_ =>
                    match filename file_ with
                    | Some _ => upload_document env file_
                    | None => raise RequestValidationError
                    end
                | None => raise RequestValidationError
                end) w in
      (respond HTTP_201_CREATED UploadBody r, w')
  | GET_files =>
      let '(r, w') := get_db (get_files env) w in
      (respond HTTP_200_OK FilesBody r, w')
  end.

End main.

(** * Vocabulary of the properties *)

Import database main.

(** An upload whose file part has a usable name. *)
Definition named (f : UploadFile) (n : string) : Prop :=
  filename f = Some n /\ n <> "".

(** The storage name the handler computes for the original name [n]. *)
Definition storage_name (env : Env) (n : string) : string :=
  uuid4 env +:+ Pathlib.suffix n.

(** The row an accepted upload inserts. *)
Definition inserted_row (env : Env) (w : World) (f : UploadFile) (n : string)
  : models.File :=
  models.mkFile (next_id (files_table w)) n (storage_name env n)
                (Z.of_nat (length (file f))) (utcnow env).

(** A request whose [file] field is missing, has no [filename]
    parameter, or has an empty one. *)
Definition no_filename (part : option UploadFile) : Prop :=
  match part with
  | None => True
  | Some f => filename f = None \/ filename f = Some ""
  end.

(** No call inside the upload handler's [try] block fails. *)
Definition no_fault (env : Env) : Prop :=
  read_fault env = None /\ open_fault env = None /\ write_fault env = None
  /\ commit_fault env = None /\ refresh_fault env = None.

(** The storage name is new: no file and no row carries it. *)
Definition fresh_name (name : string) (w : World) : Prop :=
  uploaded_files w !! name = None
  /\ has_system_filename name (files_table w) = false.

(** Where a failure that is not a store error can strike once the file is
    on disk: in [db.commit()], before anything is committed, or in
    [db.refresh()], after the commit went through. *)
Inductive FailurePoint :=
| AtCommit
| AtRefresh.

Definition unexpected_failure (env : Env) (w : World) (name msg : string)
    (p : FailurePoint) : Prop :=
  match p with
  | AtCommit => commit_fault env = Some (OtherFault msg)
  | AtRefresh =>
      commit_fault env = None
      /\ has_system_filename name (files_table w) = false
      /\ refresh_fault env = Some (OtherFault msg)
  end.

(** The extension in the words of the specification: the part of the
    file name from its last ["."] on, empty when there is no ["."], when the
    only candidate is the leading ["."] of a dotfile, and when the name
    ends in ["."]. *)
Definition claimed_extension (filename : string) : string :=
  match Pathlib.rfind "."%char filename with
  | None => ""
  | Some i =>
      if (i =? 0)%nat || (S i =? String.length filename)%nat then ""
      else Pathlib.drop i filename
  end.

(** [a] comes no later than [b] in a newest-first listing. *)
Definition newer_first (a b : models.File) : Prop :=
  models.uploaded_at b <= models.uploaded_at a.

(** A metadata view that carries the five fields of a row. *)
Definition same_fields (r : models.File) (m : schemas.FileMetadata) : Prop :=
  schemas.id m = models.id r
  /\ schemas.original_filename m = models.original_filename r
  /\ schemas.system_filename m = models.system_filename r
  /\ schemas.file_size_bytes m = models.file_size_bytes r
  /\ schemas.uploaded_at m = Some (models.uploaded_at r).

Definition is_session_event (e : Event) : bool :=
  match e with
  | SessionOpened | SessionClosed => true
  | _ => false
  end.

(** A computation that only appends to the log, and appends no session
    event. *)
Definition session_free {A} (m : M A) : Prop :=
  forall w, exists mid,
    log (snd (m w)) = log w ++ mid
    /\ Forall (fun e => is_session_event e = false) mid.

(** ** Sample worlds, environments and requests *)

Definition w0 : World := mkWorld ∅ [] [] [].

Definition env0 : Env := mkEnv "tok" 7 None None None None None None.

Definition report : UploadFile :=
  mkUploadFile (Some "report.pdf") [Byte.x25; Byte.x50].

(** [n] copies of the character [c]. *)
Fixpoint copies (n : nat) (c : ascii) : string :=
  match n with
  | O => EmptyString
  | S n' => String c (copies n' c)
  end.

(** An original name whose extension has 221 characters, a token of the
    36 characters of a UUID, and an environment in which [open] refuses
    the resulting name of 257 characters, as a file system whose names
    are limited to 255 bytes does. *)
Definition long_extension_name : string := "a." +:+ copies 220 "b"%char.

Definition long_extension_upload : UploadFile :=
  mkUploadFile (Some long_extension_name) [Byte.x25; Byte.x50].

Definition env_name_too_long : Env :=
  mkEnv "123e4567-e89b-42d3-a456-426614174000" 7
        None (Some "[Errno 36] File name too long") None None None None.

(** A world in which a file named ["tok.pdf"] lies in the directory with
    no row naming it. *)
Definition w_stale : World := mkWorld {[ "tok.pdf" := [Byte.x01] ]} [] [] [].

(** A payload of [Z.to_nat 52428801] zero bytes: one byte over the limit. *)
Definition one_byte_over : UploadFile :=
  mkUploadFile (Some "big.bin") (repeat Byte.x00 (Z.to_nat 52428801)).

(** A world in which ["tok.pdf"] is already taken by a row. *)
Definition w_taken : World :=
  mkWorld {[ "tok.pdf" := [Byte.x01] ]}
          [models.mkFile 1 "old.pdf" "tok.pdf" 1 3] [] [].

(** An environment in which [db.refresh()] raises a [MemoryError]. *)
Definition env_refresh_fails : Env :=
  mkEnv "tok" 7 None None None None (Some (OtherFault "out of memory")) None.

Definition w_three : World :=
  mkWorld ∅
    [models.mkFile 1 "a.txt" "t1.txt" 10 100;
     models.mkFile 2 "b.txt" "t2.txt" 20 300;
     models.mkFile 3 "c.txt" "t3.txt" 30 200] [] [].

(** ** The paths through [upload_document] *)

(** The ways a request with a named file part can go, in the order the
    handler reaches them. *)
Inductive UploadPath :=
| ReadFails (msg : string)
| TooLarge
| EmptyPayload
| OpenFails (msg : string)
| WriteFails (stored : nat) (msg : string)
| CommitStoreError (msg : string)
| CommitOtherError (msg : string)
| RefreshStoreError (msg : string)
| RefreshOtherError (msg : string)
| Accepted.

(** The payload was read and passed the two size checks. *)
Definition sized (env : Env) (f : UploadFile) : Prop :=
  read_fault env = None /\ file f <> []
  /\ Z.of_nat (length (file f)) <= MAX_FILE_SIZE.

(** ... and the file was written in full. *)
Definition written (env : Env) (f : UploadFile) : Prop :=
  sized env f /\ open_fault env = None /\ write_fault env = None.

(** ... and the row was committed. *)
Definition committed (env : Env) (w : World) (f : UploadFile) (n : string) : Prop :=
  written env f /\ commit_fault env = None
  /\ has_system_filename (storage_name env n) (files_table w) = false.

(** What the environment and the world must be for a path to be taken. *)
Definition path_cond (env : Env) (w : World) (f : UploadFile) (n : string)
    (p : UploadPath) : Prop :=
  match p with
  | ReadFails msg => read_fault env = Some msg
  | TooLarge =>
      read_fault env = None /\ MAX_FILE_SIZE < Z.of_nat (length (file f))
  | EmptyPayload => read_fault env = None /\ file f = []
  | OpenFails msg => sized env f /\ open_fault env = Some msg
  | WriteFails stored msg =>
      sized env f /\ open_fault env = None
      /\ write_fault env = Some (stored, msg)
  | CommitStoreError msg =>
      written env f
      /\ commit_outcome env
           [models.mkNewFile n (storage_name env n) (Z.of_nat (length (file f)))]
           (files_table w) = Raise (SQLAlchemyError msg)
  | CommitOtherError msg =>
      written env f /\ commit_fault env = Some (OtherFault msg)
  | RefreshStoreError msg =>
      committed env w f n /\ refresh_fault env = Some (StoreFault msg)
  | RefreshOtherError msg =>
      committed env w f n /\ refresh_fault env = Some (OtherFault msg)
  | Accepted => committed env w f n /\ refresh_fault env = None
  end.

(** A 500 answer and the world it leaves, given the directory, the table
    and the events between the opening and the closing of the session. *)
Definition failure (w : World) (detail : string)
    (d : gmap string (list Byte.byte)) (t : list models.File)
    (events : list Event) : Response * World :=
  (mkResponse 500 (DetailBody detail),
   mkWorld d t [] (log w ++ SessionOpened :: events ++ [SessionClosed])).

(** The answer and the world at the end of each path; [upload_path_run]
    proves that this is what [app] computes. *)
Definition path_result (env : Env) (w : World) (f : UploadFile) (n : string)
    (p : UploadPath) : Response * World :=
  let name := storage_name env n in
  let row := inserted_row env w f n in
  let d := uploaded_files w in
  let t := files_table w in
  match p with
  | ReadFails msg =>
      failure w ("Error uploading file: " +:+ msg) d t [RolledBack]
  | TooLarge =>
      failure w "Error uploading file: 400: File too large. Maximum size is 50 MB"
              d t [RolledBack]
  | EmptyPayload =>
      failure w "Error uploading file: 400: Empty file is not allowed"
              d t [RolledBack]
  | OpenFails msg =>
      failure w ("Error uploading file: " +:+ msg) d t [RolledBack]
  | WriteFails stored msg =>
      failure w ("Error uploading file: " +:+ msg)
              (<[name := take stored (file f)]> d) t
              [FileWritten name (take stored (file f)); RolledBack]
  | CommitStoreError msg =>
      failure w ("Database error: " +:+ msg) (delete name d) t
              [FileWritten name (file f); RolledBack; Unlinked name]
  | CommitOtherError msg =>
      failure w ("Error uploading file: " +:+ msg) (<[name := file f]> d) t
              [FileWritten name (file f); RolledBack]
  | RefreshStoreError msg =>
      failure w ("Database error: " +:+ msg) (delete name d) (t ++ [row])
              [FileWritten name (file f); Committed [row]; RolledBack;
               Unlinked name]
  | RefreshOtherError msg =>
      failure w ("Error uploading file: " +:+ msg) (<[name := file f]> d)
              (t ++ [row])
              [FileWritten name (file f); Committed [row]; RolledBack]
  | Accepted =>
      (mkResponse 201
         (UploadBody (schemas.mkFileUploadResponse "File uploaded successfully"
                        (next_id (files_table w)))),
       mkWorld (<[name := file f]> d) (t ++ [row]) []
               (log w ++ [SessionOpened; FileWritten name (file f);
                          Committed [row]; SessionClosed]))
  end.

(** ** Invariants of the world *)

(** The events a request added to the log. *)
Definition new_events (w w' : World) : list Event :=
  drop (length (log w)) (log w').

Definition is_unlink (e : Event) : bool :=
  match e with
  | Unlinked _ => true
  | _ => false
  end.

(** Every row names a file that is in the upload directory. *)
Definition every_row_has_file (w : World) : Prop :=
  forall r, r ∈ files_table w ->
    is_Some (uploaded_files w !! models.system_filename r).

(** What the handler's checks guarantee of a row it inserts. *)
Definition row_ok (r : models.File) : Prop :=
  models.original_filename r <> ""
  /\ 0 < models.file_size_bytes r <= MAX_FILE_SIZE.

(** Ids grow along the table. *)
Definition ids_increase (rows : list models.File) : Prop :=
  StronglySorted (fun a b => models.id a < models.id b) rows.

(** The [filename] parameter of the file part is there and empty. *)
Definition empty_filename (f : UploadFile) : bool :=
  match filename f with
  | Some EmptyString => true
  | _ => false
  end.

(** The [file] field has no [filename] parameter. *)
Definition absent_filename (f : UploadFile) : bool :=
  match filename f with
  | None => true
  | _ => false
  end.

(** The one file name a request may write or unlink. *)
Definition target_name (env : Env) (req : Request) : option string :=
  match req with
  | POST_upload_document (Some f) =>
      match filename f with
      | Some n => Some (storage_name env n)
      | None => None
      end
  | _ => None
  end.

(** A second environment, with another token and a later clock. *)
Definition env1 : Env := mkEnv "tok2" 9 None None None None None None.

Definition env_read_fails : Env :=
  mkEnv "tok" 7 (Some "connection reset") None None None None None.

Definition env_open_fails : Env :=
  mkEnv "tok" 7 None (Some "permission denied") None None None None.

Definition env_write_fails : Env :=
  mkEnv "tok" 7 None None (Some (1%nat, "no space left on device")) None None None.

Definition env_refresh_store_error : Env :=
  mkEnv "tok" 7 None None None None (Some (StoreFault "database is locked")) None.

Definition env_query_fails : Env :=
  mkEnv "tok" 7 None None None None None (Some (StoreFault "database is locked")).

(** * Properties *)

(** ** Sanity checks of the embedding *)

Example suffix_report : Pathlib.suffix "report.pdf" = ".pdf".
Proof. reflexivity. Qed.
Example suffix_dotfile : Pathlib.suffix ".bashrc" = "".
Proof. reflexivity. Qed.
Example suffix_trailing_dot : Pathlib.suffix "foo." = "".
Proof. reflexivity. Qed.
Example suffix_two_dots : Pathlib.suffix ".tar.gz" = ".gz".
Proof. reflexivity. Qed.
Example suffix_directory : Pathlib.suffix "dir.d/file.txt" = ".txt".
Proof. reflexivity. Qed.
Example suffix_dotted_directory : Pathlib.suffix "a.b/c" = "".
Proof. reflexivity. Qed.
Example suffix_trailing_slash : Pathlib.suffix "x.txt/." = ".txt".
Proof. reflexivity. Qed.

Example str_http : str (HTTPException 400 "Empty file is not allowed")
                   = "400: Empty file is not allowed".
Proof. reflexivity. Qed.

(** ** Shared facts *)

Lemma MAX_FILE_SIZE_eq : MAX_FILE_SIZE = 52428800.
Proof. reflexivity. Qed.

Lemma truthy_Some (n : string) : n <> "" -> truthy (Some n) = true.
Proof. destruct n; [congruence | reflexivity]. Qed.

Lemma truthy_false (o : option string) :
  truthy o = false <-> o = None \/ o = Some "".
Proof.
  destruct o as [[|c s]|]; simpl; split; intros H; auto;
    try discriminate; destruct H as [H|H]; discriminate.
Qed.

Lemma length_zero_iff {A} (l : list A) : Z.of_nat (length l) = 0 <-> l = [].
Proof.
  destruct l; simpl; split; intros H; auto; try discriminate; lia.
Qed.

(** Unfolding of the monadic glue, shared by the proofs below. *)
Ltac unfold_glue :=
  unfold app, get_db, try_finally, upload_document, get_files, try_except,
    mbind, M_bind, mret, M_ret, raise, pass, file_read, open_wb_write,
    db_add, db_commit, db_rollback, db_refresh, db_query_all, path_exists,
    path_unlink, SessionLocal, db_close.

(** Evaluation of the glue only: projections of records, matches on
    constructors and the world setters. The directory (a [gmap]) and the
    strings are left alone. *)
Ltac run :=
  unfold emit, set_uploaded_files, set_files_table, set_session_new, id;
  cbn beta iota zeta delta
    [fst snd negb from_option List.app
     uploaded_files files_table session_new log
     emit set_uploaded_files set_files_table set_session_new
     respond exn_of_fault str status body
     models.new_system_filename models.new_original_filename
     models.new_file_size_bytes models.id models.system_filename
     models.original_filename models.file_size_bytes models.uploaded_at].

(** Normalisation of the resulting world. *)
Ltac norm_world := run; rewrite <- ?app_assoc; run.

Lemma gtb_MAX_true (k : Z) : MAX_FILE_SIZE < k -> (k >? MAX_FILE_SIZE) = true.
Proof. intros H. apply Z.gtb_lt. exact H. Qed.

Lemma gtb_MAX_false (k : Z) : k <= MAX_FILE_SIZE -> (k >? MAX_FILE_SIZE) = false.
Proof. intros H. rewrite Z.gtb_ltb. apply Z.ltb_ge. exact H. Qed.

(** ** Validation failures *)

(** C2. An upload with an empty payload is answered with status 500, not
    400: the [HTTPException] raised by the emptiness check is caught by the
    handler's own [except Exception] clause and re-raised as a 500. No
    file is written and no row is inserted. *)
Theorem empty_payload_yields_500 (env : Env) (w : World) (f : UploadFile) (n : string) :
  named f n -> read_fault env = None -> file f = [] ->
  exists w',
    app env (POST_upload_document (Some f)) w =
      (mkResponse 500
         (DetailBody "Error uploading file: 400: Empty file is not allowed"), w')
    /\ uploaded_files w' = uploaded_files w
    /\ files_table w' = files_table w.
Proof.
  intros [Hn Hne] Hr Hf. unfold_glue.
  rewrite Hn, (truthy_Some n Hne), Hr, Hf. simpl.
  eexists. repeat split.
Qed.

Lemma empty_payload_yields_500_witness :
  exists w',
    app env0 (POST_upload_document (Some (mkUploadFile (Some "report.pdf") []))) w0 =
      (mkResponse 500
         (DetailBody "Error uploading file: 400: Empty file is not allowed"), w')
    /\ uploaded_files w' = uploaded_files w0
    /\ files_table w' = files_table w0.
Proof.
  apply (empty_payload_yields_500 env0 w0 _ "report.pdf").
  - split; [reflexivity | discriminate].
  - reflexivity.
  - reflexivity.
Defined.

(** C3. An upload whose payload is longer than [MAX_FILE_SIZE] is answered
    with status 500, not 400, for the same reason as the empty payload; no
    file is written and no row is inserted. The size rule itself is strict:
    see [max_size_payload_passes_size_rule] for exactly 50 MiB. *)
Theorem oversized_payload_yields_500 (env : Env) (w : World) (f : UploadFile) (n : string) :
  named f n -> read_fault env = None ->
  50 * 1024 * 1024 < Z.of_nat (length (file f)) ->
  exists w',
    app env (POST_upload_document (Some f)) w =
      (mkResponse 500
         (DetailBody
            "Error uploading file: 400: File too large. Maximum size is 50 MB"),
       w')
    /\ uploaded_files w' = uploaded_files w
    /\ files_table w' = files_table w.
Proof.
  intros [Hn Hne] Hr Hlen. unfold_glue.
  rewrite Hn, (truthy_Some n Hne), Hr.
  rewrite (gtb_MAX_true (Z.of_nat (length (file f)))) by (rewrite MAX_FILE_SIZE_eq; lia).
  simpl. eexists. repeat split.
Qed.

Lemma oversized_payload_yields_500_witness :
  exists w',
    app env0 (POST_upload_document (Some one_byte_over)) w0 =
      (mkResponse 500
         (DetailBody
            "Error uploading file: 400: File too large. Maximum size is 50 MB"),
       w')
    /\ uploaded_files w' = uploaded_files w0
    /\ files_table w' = files_table w0.
Proof.
  apply (oversized_payload_yields_500 env0 w0 one_byte_over "big.bin").
  - split; [reflexivity | discriminate].
  - reflexivity.
  - unfold one_byte_over, file. rewrite repeat_length, Z2Nat.id; lia.
Defined.

(** The guard of the handler itself: a falsy [file.filename] ([None] or
    [""]) raises the 400 before the [try] block, touching nothing. *)
Lemma upload_document_guard (env : Env) (w : World) (f : UploadFile) :
  truthy (filename f) = false ->
  upload_document env f w
  = (Raise (HTTPException 400 "No filename provided"), w).
Proof. intros H. unfold upload_document, raise. rewrite H. reflexivity. Qed.

(** C7 (as amended). A file part whose [filename] parameter is empty is
    rejected by the handler with status 400. A request without the [file]
    field, and one whose [file] field has no [filename] parameter (a text
    field), never reach the handler and are rejected with status 422. In
    all three cases no file is written and no row is inserted. *)
Theorem missing_filename_rejected (env : Env) (w : World) (part : option UploadFile) :
  no_filename part ->
  exists detail w',
    app env (POST_upload_document part) w =
      (mkResponse (match part with
                   | Some f =>
                       match filename f with
                       | Some _ => 400
                       | None => 422
                       end
                   | None => 422
                   end)
                  (DetailBody detail), w')
    /\ uploaded_files w' = uploaded_files w
    /\ files_table w' = files_table w.
Proof.
  intros H. destruct part as [f|]; unfold_glue.
  - destruct H as [H|H]; rewrite H; simpl; do 2 eexists; repeat split.
  - simpl. do 2 eexists. repeat split.
Qed.

Lemma missing_filename_rejected_witness :
  exists detail w',
    app env0 (POST_upload_document (Some (mkUploadFile (Some "") [Byte.x00]))) w0 =
      (mkResponse 400 (DetailBody detail), w')
    /\ uploaded_files w' = uploaded_files w0
    /\ files_table w' = files_table w0.
Proof.
  apply (missing_filename_rejected env0 w0
           (Some (mkUploadFile (Some "") [Byte.x00]))).
  simpl. right. reflexivity.
Defined.

(** C7 (as stated) fails for a request without a file part: the status is
    422, not 400. *)
Lemma no_file_part_is_422 :
  status (fst (app env0 (POST_upload_document None) w0)) = 422
  /\ status (fst (app env0 (POST_upload_document None) w0)) <> 400.
Proof. split; [reflexivity | discriminate]. Qed.

(** ** Accepted uploads *)

Arguments Pathlib.suffix : simpl never.

Lemma flush_single (now : Z) (o : models.NewFile) (rows : list models.File) :
  flush now [o] rows =
    if has_system_filename (models.new_system_filename o) rows
    then Raise (SQLAlchemyError unique_violation)
    else Return (rows ++ [models.mkFile (next_id rows)
                            (models.new_original_filename o)
                            (models.new_system_filename o)
                            (models.new_file_size_bytes o) now]).
Proof. reflexivity. Qed.

Lemma find_inserted (name : string) (rows : list models.File) (r : models.File) :
  has_system_filename name rows = false ->
  models.system_filename r = name ->
  List.find (fun x => String.eqb (models.system_filename x) name) (rows ++ [r])
  = Some r.
Proof.
  intros Hfresh Hr. induction rows as [|x rows IH]; simpl in *.
  - rewrite Hr, String.eqb_refl. reflexivity.
  - apply orb_false_iff in Hfresh as [Hx Hrows]. rewrite Hx. auto.
Qed.

Section AcceptedUpload.

Variables (env : Env) (w : World) (f : UploadFile) (n : string).
Hypothesis Hnamed : named f n.
Hypothesis Hread : read_fault env = None.
Hypothesis Hnonempty : file f <> [].
Hypothesis Hsize : Z.of_nat (length (file f)) <= MAX_FILE_SIZE.
Hypothesis Hopen : open_fault env = None.
Hypothesis Hwrite : write_fault env = None.

(** The request up to the point where the store is asked to commit. *)
Ltac reach_commit :=
  destruct Hnamed as [Hn Hne];
  unfold_glue;
  rewrite Hn, (truthy_Some n Hne), Hread;
  rewrite (gtb_MAX_false _ Hsize);
  replace (Z.of_nat (length (file f)) =? 0) with false
    by (symmetry; apply Z.eqb_neq; rewrite length_zero_iff; exact Hnonempty);
  rewrite Hopen, Hwrite; run;
  fold (storage_name env n).

Lemma run_committed :
  commit_fault env = None ->
  has_system_filename (storage_name env n) (files_table w) = false ->
  refresh_fault env = None ->
  app env (POST_upload_document (Some f)) w =
    (mkResponse 201
       (UploadBody (schemas.mkFileUploadResponse "File uploaded successfully"
                      (next_id (files_table w)))),
     mkWorld (<[storage_name env n := file f]> (uploaded_files w))
             (files_table w ++ [inserted_row env w f n]) []
             (log w ++ [SessionOpened; FileWritten (storage_name env n) (file f);
                        Committed [inserted_row env w f n]; SessionClosed])).
Proof.
  intros Hc Hfresh Hr. reach_commit.
  unfold commit_outcome. rewrite Hc, flush_single. run.
  rewrite Hfresh, Hr. run. fold (inserted_row env w f n).
  rewrite (find_inserted (storage_name env n) (files_table w)
             (inserted_row env w f n) Hfresh eq_refl).
  run.
  rewrite drop_app_length. norm_world. reflexivity.
Qed.

Lemma run_store_error (msg : string) :
  commit_outcome env
    [models.mkNewFile n (storage_name env n) (Z.of_nat (length (file f)))]
    (files_table w) = Raise (SQLAlchemyError msg) ->
  app env (POST_upload_document (Some f)) w =
    (mkResponse 500 (DetailBody ("Database error: " +:+ msg)),
     mkWorld (delete (storage_name env n) (uploaded_files w)) (files_table w) []
             (log w ++ [SessionOpened; FileWritten (storage_name env n) (file f);
                        RolledBack; Unlinked (storage_name env n); SessionClosed])).
Proof.
  intros Hc. reach_commit. rewrite Hc. run.
  rewrite lookup_insert_eq. rewrite bool_decide_eq_true_2 by eauto.
  norm_world. rewrite delete_insert_eq. reflexivity.
Qed.

Lemma run_commit_other_error (msg : string) :
  commit_outcome env
    [models.mkNewFile n (storage_name env n) (Z.of_nat (length (file f)))]
    (files_table w) = Raise (OtherException msg) ->
  app env (POST_upload_document (Some f)) w =
    (mkResponse 500 (DetailBody ("Error uploading file: " +:+ msg)),
     mkWorld (<[storage_name env n := file f]> (uploaded_files w)) (files_table w) []
             (log w ++ [SessionOpened; FileWritten (storage_name env n) (file f);
                        RolledBack; SessionClosed])).
Proof.
  intros Hc. reach_commit. rewrite Hc. norm_world. reflexivity.
Qed.

Lemma run_refresh_other_error (msg : string) :
  commit_fault env = None ->
  has_system_filename (storage_name env n) (files_table w) = false ->
  refresh_fault env = Some (OtherFault msg) ->
  app env (POST_upload_document (Some f)) w =
    (mkResponse 500 (DetailBody ("Error uploading file: " +:+ msg)),
     mkWorld (<[storage_name env n := file f]> (uploaded_files w))
             (files_table w ++ [inserted_row env w f n]) []
             (log w ++ [SessionOpened; FileWritten (storage_name env n) (file f);
                        Committed [inserted_row env w f n]; RolledBack; SessionClosed])).
Proof.
  intros Hc Hfresh Hr. reach_commit.
  unfold commit_outcome. rewrite Hc, flush_single. run.
  rewrite Hfresh, Hr. run. fold (inserted_row env w f n).
  rewrite drop_app_length. norm_world. reflexivity.
Qed.

Lemma run_refresh_store_error (msg : string) :
  commit_fault env = None ->
  has_system_filename (storage_name env n) (files_table w) = false ->
  refresh_fault env = Some (StoreFault msg) ->
  app env (POST_upload_document (Some f)) w =
    (mkResponse 500 (DetailBody ("Database error: " +:+ msg)),
     mkWorld (delete (storage_name env n) (uploaded_files w))
             (files_table w ++ [inserted_row env w f n]) []
             (log w ++ [SessionOpened; FileWritten (storage_name env n) (file f);
                        Committed [inserted_row env w f n]; RolledBack;
                        Unlinked (storage_name env n); SessionClosed])).
Proof.
  intros Hc Hfresh Hr. reach_commit.
  unfold commit_outcome. rewrite Hc, flush_single. run.
  rewrite Hfresh, Hr. run. fold (inserted_row env w f n).
  rewrite lookup_insert_eq. rewrite bool_decide_eq_true_2 by eauto.
  rewrite drop_app_length. norm_world. rewrite delete_insert_eq. reflexivity.
Qed.

End AcceptedUpload.

(** C1 (as amended). A named upload with a non-empty payload of at most
    [MAX_FILE_SIZE] bytes succeeds when no call of the handler fails and
    the generated name is new: the
    response is 201 with the id the store assigned and the confirmation
    message, the upload directory gains exactly the file stored under the
    generated name, and the table gains exactly one row, whose
    [file_size_bytes] is the length of the payload. *)
Theorem upload_succeeds (env : Env) (w : World) (f : UploadFile) (n : string) :
  named f n ->
  file f <> [] ->
  Z.of_nat (length (file f)) <= MAX_FILE_SIZE ->
  no_fault env ->
  fresh_name (storage_name env n) w ->
  exists w' row,
    app env (POST_upload_document (Some f)) w =
      (mkResponse 201
         (UploadBody (schemas.mkFileUploadResponse "File uploaded successfully"
                        (models.id row))), w')
    /\ uploaded_files w' = <[storage_name env n := file f]> (uploaded_files w)
    /\ size (uploaded_files w') = S (size (uploaded_files w))
    /\ files_table w' = files_table w ++ [row]
    /\ row = inserted_row env w f n
    /\ models.file_size_bytes row = Z.of_nat (length (file f)).
Proof.
  intros Hnamed Hne Hsize (Hr & Ho & Hw & Hc & Hrf) [Hdisk Htable].
  eexists _, (inserted_row env w f n). split.
  - apply (run_committed env w f n); assumption.
  - run. repeat split. apply map_size_insert_None. exact Hdisk.
Qed.

Lemma upload_succeeds_witness :
  exists w' row,
    app env0 (POST_upload_document (Some report)) w0 =
      (mkResponse 201
         (UploadBody (schemas.mkFileUploadResponse "File uploaded successfully"
                        (models.id row))), w')
    /\ uploaded_files w' = <[storage_name env0 "report.pdf" := file report]> (uploaded_files w0)
    /\ size (uploaded_files w') = S (size (uploaded_files w0))
    /\ files_table w' = files_table w0 ++ [row]
    /\ row = inserted_row env0 w0 report "report.pdf"
    /\ models.file_size_bytes row = Z.of_nat (length (file report)).
Proof.
  apply (upload_succeeds env0 w0 report "report.pdf").
  - split; [reflexivity | discriminate].
  - discriminate.
  - vm_compute. discriminate.
  - repeat split.
  - split; reflexivity.
Defined.

(** C1 (as stated) fails inside its own conditions: the upload below has
    a name and a payload of two bytes, but its storage name, the token
    followed by the extension of 221 characters, is 257 characters long;
    [open] refuses it, and the answer is 500 with no file and no row. *)
Lemma long_extension_upload_fails :
  let '(resp, w') :=
    app env_name_too_long (POST_upload_document (Some long_extension_upload)) w0 in
  named long_extension_upload long_extension_name
  /\ file long_extension_upload <> []
  /\ Z.of_nat (length (file long_extension_upload)) <= MAX_FILE_SIZE
  /\ String.length (storage_name env_name_too_long long_extension_name) = 257%nat
  /\ status resp = 500
  /\ uploaded_files w' = uploaded_files w0
  /\ files_table w' = files_table w0.
Proof. vm_compute. repeat split; discriminate. Qed.

(** Without a new name the directory gains nothing: a stale file under the
    generated name is overwritten, and the upload is still answered 201. *)
Example stale_file_is_overwritten :
  let '(resp, w') := app env0 (POST_upload_document (Some report)) w_stale in
  status resp = 201
  /\ uploaded_files w' !! "tok.pdf" = Some (file report)
  /\ size (uploaded_files w') = size (uploaded_files w_stale).
Proof. vm_compute. repeat split. Qed.

(** The size rule is strict: a payload of exactly [MAX_FILE_SIZE] bytes
    passes it, and the upload then succeeds like any other. *)
Lemma max_size_payload_passes_size_rule (env : Env) (w : World) (f : UploadFile) (n : string) :
  named f n ->
  Z.of_nat (length (file f)) = MAX_FILE_SIZE ->
  no_fault env ->
  fresh_name (storage_name env n) w ->
  status (fst (app env (POST_upload_document (Some f)) w)) = 201.
Proof.
  intros Hnamed Hlen (Hr & Ho & Hw & Hc & Hrf) [Hdisk Htable].
  rewrite (run_committed env w f n); try assumption; try reflexivity.
  - intros E. rewrite E in Hlen. discriminate Hlen.
  - lia.
Qed.

(** C4. When the insert fails with a store error after the file was
    written, the handler removes that file and answers 500 with the
    store's message in the detail; the transaction is rolled back, so the
    table is as before and nothing is left pending. *)
Theorem store_error_is_compensated (env : Env) (w : World) (f : UploadFile)
    (n msg : string) :
  named f n ->
  file f <> [] ->
  Z.of_nat (length (file f)) <= MAX_FILE_SIZE ->
  read_fault env = None -> open_fault env = None -> write_fault env = None ->
  commit_outcome env
    [models.mkNewFile n (storage_name env n) (Z.of_nat (length (file f)))]
    (files_table w) = Raise (SQLAlchemyError msg) ->
  exists w',
    app env (POST_upload_document (Some f)) w =
      (mkResponse 500 (DetailBody ("Database error: " +:+ msg)), w')
    /\ uploaded_files w' !! storage_name env n = None
    /\ uploaded_files w' = delete (storage_name env n) (uploaded_files w)
    /\ files_table w' = files_table w
    /\ session_new w' = []
    /\ log w' = log w ++ [SessionOpened;
                          FileWritten (storage_name env n) (file f);
                          RolledBack; Unlinked (storage_name env n);
                          SessionClosed].
Proof.
  intros Hnamed Hne Hsize Hr Ho Hw Hc.
  eexists. split.
  - apply (run_store_error env w f n); assumption.
  - run. repeat split. apply lookup_delete_eq.
Qed.

Lemma store_error_is_compensated_witness :
  exists w',
    app env0 (POST_upload_document (Some report)) w_taken =
      (mkResponse 500 (DetailBody ("Database error: " +:+ unique_violation)), w')
    /\ uploaded_files w' !! storage_name env0 "report.pdf" = None
    /\ uploaded_files w' = delete (storage_name env0 "report.pdf") (uploaded_files w_taken)
    /\ files_table w' = files_table w_taken
    /\ session_new w' = []
    /\ log w' = log w_taken ++ [SessionOpened;
                          FileWritten (storage_name env0 "report.pdf") (file report);
                          RolledBack; Unlinked (storage_name env0 "report.pdf");
                          SessionClosed].
Proof.
  apply (store_error_is_compensated env0 w_taken report "report.pdf").
  - split; [reflexivity | discriminate].
  - discriminate.
  - vm_compute. discriminate.
  - reflexivity.
  - reflexivity.
  - reflexivity.
  - reflexivity.
Defined.

(** ** Unexpected failures after the write *)

(** C9 (as amended). When a failure that is not a store error occurs after
    the file was written, the handler answers 500 and leaves the file on
    disk with the full payload: nothing is unlinked. If the failure struck
    in the commit, no row is committed; if it struck after the commit, the
    new row stays committed. *)
Theorem unexpected_failure_keeps_file (env : Env) (w : World) (f : UploadFile)
    (n msg : string) (p : FailurePoint) :
  named f n ->
  file f <> [] ->
  Z.of_nat (length (file f)) <= MAX_FILE_SIZE ->
  read_fault env = None -> open_fault env = None -> write_fault env = None ->
  unexpected_failure env w (storage_name env n) msg p ->
  exists w',
    app env (POST_upload_document (Some f)) w =
      (mkResponse 500 (DetailBody ("Error uploading file: " +:+ msg)), w')
    /\ uploaded_files w' !! storage_name env n = Some (file f)
    /\ uploaded_files w' = <[storage_name env n := file f]> (uploaded_files w)
    /\ (Unlinked (storage_name env n) ∉ drop (length (log w)) (log w'))
    /\ files_table w' =
         match p with
         | AtCommit => files_table w
         | AtRefresh => files_table w ++ [inserted_row env w f n]
         end.
Proof.
  intros Hnamed Hne Hsize Hr Ho Hw Hp. destruct p; simpl in Hp.
  - eexists. split.
    + apply (run_commit_other_error env w f n); try assumption.
      unfold commit_outcome. rewrite Hp. reflexivity.
    + run. rewrite lookup_insert_eq, drop_app_length.
      repeat split. intros Hin.
      repeat (apply elem_of_cons in Hin as [Hin|Hin]; [discriminate|]).
      inversion Hin.
  - destruct Hp as (Hc & Hfresh & Hrf). eexists. split.
    + apply (run_refresh_other_error env w f n); assumption.
    + run. rewrite lookup_insert_eq, drop_app_length.
      repeat split. intros Hin.
      repeat (apply elem_of_cons in Hin as [Hin|Hin]; [discriminate|]).
      inversion Hin.
Qed.

Lemma unexpected_failure_keeps_file_witness :
  exists w',
    app env_refresh_fails (POST_upload_document (Some report)) w0 =
      (mkResponse 500 (DetailBody ("Error uploading file: " +:+ "out of memory")), w')
    /\ uploaded_files w' !! storage_name env_refresh_fails "report.pdf" = Some (file report)
    /\ uploaded_files w' =
         <[storage_name env_refresh_fails "report.pdf" := file report]> (uploaded_files w0)
    /\ (Unlinked (storage_name env_refresh_fails "report.pdf")
          ∉ drop (length (log w0)) (log w'))
    /\ files_table w' =
         files_table w0 ++ [inserted_row env_refresh_fails w0 report "report.pdf"].
Proof.
  apply (unexpected_failure_keeps_file env_refresh_fails w0 report "report.pdf"
           "out of memory" AtRefresh).
  - split; [reflexivity | discriminate].
  - discriminate.
  - vm_compute. discriminate.
  - reflexivity.
  - reflexivity.
  - reflexivity.
  - repeat split.
Defined.

Example commit_failure_leaves_orphan :
  let env := mkEnv "tok" 7 None None None (Some (OtherFault "disk full")) None None in
  let '(resp, w') := app env (POST_upload_document (Some report)) w0 in
  status resp = 500
  /\ uploaded_files w' !! "tok.pdf" = Some (file report)
  /\ files_table w' = [].
Proof. vm_compute. repeat split. Qed.

(** C9 (as stated) fails when the failure strikes in [db.refresh()]: the
    answer is 500 and the file stays on disk, but the row that names it is
    committed. *)
Lemma refresh_failure_leaves_committed_row :
  let '(resp, w') :=
    app env_refresh_fails (POST_upload_document (Some report)) w0 in
  status resp = 500
  /\ uploaded_files w' !! "tok.pdf" = Some (file report)
  /\ has_system_filename "tok.pdf" (files_table w') = true
  /\ files_table w0 = [].
Proof. vm_compute. repeat split. Qed.

(** ** What a successful upload leaves behind *)

(** A 201 answer can only come from the path on which every step went
    through. *)
Lemma accepted_inv (env : Env) (w : World) (f : UploadFile) :
  status (fst (app env (POST_upload_document (Some f)) w)) = 201 ->
  exists n,
    named f n
    /\ app env (POST_upload_document (Some f)) w =
         (mkResponse 201
            (UploadBody (schemas.mkFileUploadResponse "File uploaded successfully"
                           (next_id (files_table w)))),
          mkWorld (<[storage_name env n := file f]> (uploaded_files w))
                  (files_table w ++ [inserted_row env w f n]) []
                  (log w ++ [SessionOpened;
                             FileWritten (storage_name env n) (file f);
                             Committed [inserted_row env w f n];
                             SessionClosed])).
Proof.
  intros H.
  destruct (filename f) as [n|] eqn:Hn;
    [|exfalso; revert H; unfold_glue; rewrite Hn; simpl; discriminate].
  destruct (string_dec n "") as [->|Hne];
    [exfalso; revert H; unfold_glue; rewrite Hn; simpl; discriminate|].
  assert (Hnamed : named f n) by (split; assumption).
  exists n. split; [exact Hnamed|].
  destruct (read_fault env) as [m|] eqn:Hr;
    [exfalso; revert H; unfold_glue;
     rewrite Hn, (truthy_Some n Hne), Hr; simpl; discriminate|].
  destruct (Z.of_nat (length (file f)) >? MAX_FILE_SIZE) eqn:Hgt;
    [exfalso; revert H; unfold_glue;
     rewrite Hn, (truthy_Some n Hne), Hr, Hgt; simpl; discriminate|].
  destruct (Z.of_nat (length (file f)) =? 0) eqn:Hz;
    [exfalso; revert H; unfold_glue;
     rewrite Hn, (truthy_Some n Hne), Hr, Hgt, Hz; simpl; discriminate|].
  destruct (open_fault env) as [m|] eqn:Ho;
    [exfalso; revert H; unfold_glue;
     rewrite Hn, (truthy_Some n Hne), Hr, Hgt, Hz, Ho; simpl; discriminate|].
  destruct (write_fault env) as [[k m]|] eqn:Hw;
    [exfalso; revert H; unfold_glue;
     rewrite Hn, (truthy_Some n Hne), Hr, Hgt, Hz, Ho, Hw; simpl; discriminate|].
  assert (Hsize : Z.of_nat (length (file f)) <= MAX_FILE_SIZE)
    by (rewrite Z.gtb_ltb in Hgt; apply Z.ltb_ge in Hgt; exact Hgt).
  assert (Hnonempty : file f <> [])
    by (apply Z.eqb_neq in Hz; rewrite length_zero_iff in Hz; exact Hz).
  destruct (commit_outcome env
              [models.mkNewFile n (storage_name env n) (Z.of_nat (length (file f)))]
              (files_table w)) as [[s d|m|m|]|rows] eqn:Hc.
  - unfold commit_outcome in Hc. destruct (commit_fault env) as [[m|m]|];
      [discriminate Hc..|].
    rewrite flush_single in Hc. simpl in Hc.
    destruct (has_system_filename _ _); discriminate Hc.
  - rewrite (run_store_error env w f n Hnamed Hr Hnonempty Hsize Ho Hw m Hc) in H.
    discriminate H.
  - rewrite (run_commit_other_error env w f n Hnamed Hr Hnonempty Hsize Ho Hw m Hc) in H.
    discriminate H.
  - unfold commit_outcome in Hc. destruct (commit_fault env) as [[m|m]|];
      [discriminate Hc..|].
    rewrite flush_single in Hc. simpl in Hc.
    destruct (has_system_filename _ _); discriminate Hc.
  - unfold commit_outcome in Hc.
    destruct (commit_fault env) as [[m|m]|] eqn:Hcf; [discriminate Hc..|].
    rewrite flush_single in Hc. simpl in Hc.
    destruct (has_system_filename (storage_name env n) (files_table w)) eqn:Hfresh;
      [discriminate Hc|].
    destruct (refresh_fault env) as [[m|m]|] eqn:Hrf.
    + rewrite (run_refresh_store_error env w f n Hnamed Hr Hnonempty Hsize Ho Hw
                 m Hcf Hfresh Hrf) in H.
      discriminate H.
    + rewrite (run_refresh_other_error env w f n Hnamed Hr Hnonempty Hsize Ho Hw
                 m Hcf Hfresh Hrf) in H.
      discriminate H.
    + apply (run_committed env w f n); assumption.
Qed.

(** C10. After a successful upload the file stored under the generated
    name holds exactly the payload, and the effects of the request are, in
    order: the session is opened, the file is written, the row is
    committed, the session is closed. *)
Theorem successful_upload_stores_payload (env : Env) (w : World) (f : UploadFile) :
  status (fst (app env (POST_upload_document (Some f)) w)) = 201 ->
  exists n,
    named f n
    /\ let w' := snd (app env (POST_upload_document (Some f)) w) in
       uploaded_files w' !! storage_name env n = Some (file f)
       /\ files_table w' = files_table w ++ [inserted_row env w f n]
       /\ log w' = log w ++ [SessionOpened;
                             FileWritten (storage_name env n) (file f);
                             Committed [inserted_row env w f n];
                             SessionClosed].
Proof.
  intros H. destruct (accepted_inv env w f H) as (n & Hnamed & Hrun).
  exists n. split; [exact Hnamed|].
  rewrite Hrun. run. rewrite lookup_insert_eq. repeat split.
Qed.

Lemma successful_upload_stores_payload_witness :
  exists n,
    named report n
    /\ let w' := snd (app env0 (POST_upload_document (Some report)) w0) in
       uploaded_files w' !! storage_name env0 n = Some (file report)
       /\ files_table w' = files_table w0 ++ [inserted_row env0 w0 report n]
       /\ log w' = log w0 ++ [SessionOpened;
                             FileWritten (storage_name env0 n) (file report);
                             Committed [inserted_row env0 w0 report n];
                             SessionClosed].
Proof.
  apply (successful_upload_stores_payload env0 w0 report).
  reflexivity.
Defined.

(** ** The storage name *)

Lemma rfind_lt (c : ascii) (s : string) (i : nat) :
  Pathlib.rfind c s = Some i -> (i < String.length s)%nat.
Proof.
  revert i. induction s as [|a s IH]; simpl; intros i H; [discriminate|].
  destruct (Pathlib.rfind c s) as [j|].
  - injection H as <-. specialize (IH j eq_refl). lia.
  - destruct (Ascii.eqb a c); [|discriminate]. injection H as <-. lia.
Qed.

(** On a single path component the source and the specification agree. *)
Lemma suffix_of_name (p : string) :
  Pathlib.suffix p = claimed_extension (Pathlib.name p).
Proof.
  unfold Pathlib.suffix, claimed_extension.
  destruct (Pathlib.rfind "."%char (Pathlib.name p)) as [i|] eqn:Hi; [|reflexivity].
  apply rfind_lt in Hi.
  destruct (Nat.eqb_spec i 0),
           (Nat.eqb_spec (S i) (String.length (Pathlib.name p))),
           (Z.ltb_spec 0 (Z.of_nat i)),
           (Z.ltb_spec (Z.of_nat i) (Z.of_nat (String.length (Pathlib.name p)) - 1));
    cbn [andb orb]; try reflexivity; exfalso; lia.
Qed.

Lemma split_no_sep (sep : ascii) (s : string) :
  Pathlib.rfind sep s = None -> Pathlib.split sep s = [s].
Proof.
  induction s as [|a s IH]; simpl; intros H; [reflexivity|].
  destruct (Pathlib.rfind sep s); [discriminate|].
  destruct (Ascii.eqb a sep); [discriminate|].
  rewrite IH; reflexivity.
Qed.

(** A name without ["/"] is its own final component, up to the special
    name ["."], and both have an empty extension. *)
Lemma suffix_no_slash (n : string) :
  Pathlib.rfind "/"%char n = None -> Pathlib.suffix n = claimed_extension n.
Proof.
  intros H. rewrite suffix_of_name. unfold Pathlib.name, Pathlib.parts.
  rewrite (split_no_sep _ _ H). simpl.
  destruct (String.eqb_spec n "") as [->|H1]; [reflexivity|].
  destruct (String.eqb_spec n ".") as [->|H2]; reflexivity.
Qed.

(** C6 (as amended). For every accepted upload the storage name, which is
    both the [system_filename] of the new row and the name of the new
    file, is the token followed by the extension of the final path
    component of the original name; for an original name without ["/"]
    that is the extension of the name itself. *)
Theorem storage_name_is_token_plus_extension (env : Env) (w : World) (f : UploadFile) :
  status (fst (app env (POST_upload_document (Some f)) w)) = 201 ->
  exists n row,
    filename f = Some n
    /\ let w' := snd (app env (POST_upload_document (Some f)) w) in
       files_table w' = files_table w ++ [row]
       /\ models.original_filename row = n
       /\ models.system_filename row
          = uuid4 env +:+ claimed_extension (Pathlib.name n)
       /\ uploaded_files w' !! models.system_filename row = Some (file f)
       /\ (Pathlib.rfind "/"%char n = None ->
           models.system_filename row = uuid4 env +:+ claimed_extension n).
Proof.
  intros H. destruct (accepted_inv env w f H) as (n & [Hn Hne] & Hrun).
  exists n, (inserted_row env w f n). split; [exact Hn|].
  rewrite Hrun. unfold inserted_row, storage_name. run.
  rewrite lookup_insert_eq, <- suffix_of_name. repeat split.
  intros Hslash. rewrite (suffix_no_slash n Hslash). reflexivity.
Qed.

Lemma storage_name_is_token_plus_extension_witness :
  exists n row,
    filename report = Some n
    /\ let w' := snd (app env0 (POST_upload_document (Some report)) w0) in
       files_table w' = files_table w0 ++ [row]
       /\ models.original_filename row = n
       /\ models.system_filename row
          = uuid4 env0 +:+ claimed_extension (Pathlib.name n)
       /\ uploaded_files w' !! models.system_filename row = Some (file report)
       /\ (Pathlib.rfind "/"%char n = None ->
           models.system_filename row = uuid4 env0 +:+ claimed_extension n).
Proof.
  apply (storage_name_is_token_plus_extension env0 w0 report).
  reflexivity.
Defined.

(** C6 (as stated) fails for an original name with a dotted directory
    part: the upload of ["a.b/c"] is accepted and stored under the bare
    token, whereas the part of the name from its last ["."] on is
    [".b/c"]. *)
Lemma dotted_directory_extension_differs :
  let f := mkUploadFile (Some "a.b/c") [Byte.x00] in
  let '(resp, w') := app env0 (POST_upload_document (Some f)) w0 in
  status resp = 201
  /\ List.map models.system_filename (files_table w') = ["tok"]
  /\ uuid4 env0 +:+ claimed_extension "a.b/c" = "tok.b/c"
  /\ List.map models.system_filename (files_table w')
     <> [uuid4 env0 +:+ claimed_extension "a.b/c"].
Proof. vm_compute. repeat split. discriminate. Qed.

(** ** Listing *)

Lemma insert_desc_perm (r : models.File) (l : list models.File) :
  Permutation (insert_desc r l) (r :: l).
Proof.
  induction l as [|x l IH]; simpl; [reflexivity|].
  destruct (models.uploaded_at x <? models.uploaded_at r); [reflexivity|].
  rewrite IH. apply perm_swap.
Qed.

Lemma order_by_perm (rows : list models.File) :
  Permutation (order_by_uploaded_at_desc rows) rows.
Proof.
  induction rows as [|r rows IH]; simpl; [reflexivity|].
  rewrite insert_desc_perm, IH. reflexivity.
Qed.

Lemma insert_desc_sorted (r : models.File) (l : list models.File) :
  StronglySorted newer_first l -> StronglySorted newer_first (insert_desc r l).
Proof.
  induction 1 as [|x l Hs IH Hx]; simpl.
  - repeat constructor.
  - destruct (Z.ltb_spec (models.uploaded_at x) (models.uploaded_at r)) as [Hlt|Hge].
    + constructor; [constructor; assumption|].
      constructor; [unfold newer_first; lia|].
      eapply Forall_impl; [exact Hx|].
      unfold newer_first. intros y Hy. lia.
    + constructor; [exact IH|].
      rewrite insert_desc_perm. constructor; [exact Hge | exact Hx].
Qed.

Lemma order_by_sorted (rows : list models.File) :
  StronglySorted newer_first (order_by_uploaded_at_desc rows).
Proof.
  induction rows as [|r rows IH]; simpl; [constructor|].
  apply insert_desc_sorted, IH.
Qed.

Lemma from_orm_same_fields (rows : list models.File) :
  Forall2 same_fields rows (List.map schemas.from_orm rows).
Proof.
  induction rows as [|r rows IH]; simpl; constructor; [|exact IH].
  repeat split.
Qed.

(** Listing never touches the upload directory or the table, whether or
    not the query succeeds. *)
Lemma get_files_read_only (env : Env) (w : World) :
  uploaded_files (snd (app env GET_files w)) = uploaded_files w
  /\ files_table (snd (app env GET_files w)) = files_table w.
Proof.
  unfold_glue. destruct (query_fault env) as [[m|m]|]; simpl; split; reflexivity.
Qed.

Lemma run_get_files (env : Env) (w : World) :
  query_fault env = None ->
  app env GET_files w =
    (mkResponse 200
       (FilesBody
          (schemas.mkFileListResponse
             (List.map schemas.from_orm (order_by_uploaded_at_desc (files_table w)))
             (Z.of_nat (length (List.map schemas.from_orm
                                  (order_by_uploaded_at_desc (files_table w))))))),
     mkWorld (uploaded_files w) (files_table w) []
             (log w ++ [SessionOpened; SessionClosed])).
Proof.
  intros Hq. unfold_glue. rewrite Hq. norm_world. reflexivity.
Qed.

(** C5. When the store answers the query, [GET /files] returns status 200
    with one view per stored row, the rows taken newest first (no row is
    followed by one with a later [uploaded_at]), every view carrying the
    five fields of its row, and [count] equal to the number of views; the
    upload directory and the table are left as they were. *)
Theorem listing_is_newest_first (env : Env) (w : World) :
  query_fault env = None ->
  exists rows views w',
    app env GET_files w =
      (mkResponse 200
         (FilesBody (schemas.mkFileListResponse views (Z.of_nat (length views)))),
       w')
    /\ Permutation rows (files_table w)
    /\ StronglySorted newer_first rows
    /\ Forall2 same_fields rows views
    /\ uploaded_files w' = uploaded_files w
    /\ files_table w' = files_table w.
Proof.
  intros Hq.
  exists (order_by_uploaded_at_desc (files_table w)),
         (List.map schemas.from_orm (order_by_uploaded_at_desc (files_table w))).
  eexists. split; [apply run_get_files; exact Hq|].
  run. repeat split.
  - apply order_by_perm.
  - apply order_by_sorted.
  - apply from_orm_same_fields.
Qed.

Example order_by_three :
  List.map models.id (order_by_uploaded_at_desc (files_table w_three)) = [2; 3; 1].
Proof. reflexivity. Qed.

Lemma listing_is_newest_first_witness :
  exists rows views w',
    app env0 GET_files w_three =
      (mkResponse 200
         (FilesBody (schemas.mkFileListResponse views (Z.of_nat (length views)))),
       w')
    /\ Permutation rows (files_table w_three)
    /\ StronglySorted newer_first rows
    /\ Forall2 same_fields rows views
    /\ uploaded_files w' = uploaded_files w_three
    /\ files_table w' = files_table w_three.
Proof.
  apply (listing_is_newest_first env0 w_three).
  reflexivity.
Defined.

(** ** Session scope *)

Lemma session_free_ret {A} (a : A) : session_free (mret a).
Proof. intros w. exists []. simpl. rewrite app_nil_r. auto. Qed.

Lemma session_free_raise {A} (e : exn) : session_free (@raise A e).
Proof. intros w. exists []. simpl. rewrite app_nil_r. auto. Qed.

Lemma session_free_bind {A B} (m : M A) (k : A -> M B) :
  session_free m -> (forall a, session_free (k a)) -> session_free (m ≫= k).
Proof.
  intros Hm Hk w. unfold mbind, M_bind.
  destruct (Hm w) as (mid1 & E1 & F1). destruct (m w) as [[e|a] w1]; simpl in *.
  - exists mid1. auto.
  - destruct (Hk a w1) as (mid2 & E2 & F2).
    exists (mid1 ++ mid2). rewrite E2, E1, app_assoc. split; [reflexivity|].
    apply Forall_app. auto.
Qed.

Lemma session_free_try_except {A} (body : M A) (handler : exn -> M A) :
  session_free body -> (forall e, session_free (handler e)) ->
  session_free (try_except body handler).
Proof.
  intros Hb Hh w. unfold try_except.
  destruct (Hb w) as (mid1 & E1 & F1). destruct (body w) as [[e|a] w1]; simpl in *.
  - destruct (Hh e w1) as (mid2 & E2 & F2).
    exists (mid1 ++ mid2). rewrite E2, E1, app_assoc. split; [reflexivity|].
    apply Forall_app. auto.
  - exists mid1. auto.
Qed.

(** Primitives: each appends nothing, or one event that is not a session
    event. *)
Ltac session_free_prim :=
  intros w; unfold_glue; unfold commit_outcome;
  repeat match goal with
         | |- context [match ?x with _ => _ end] => destruct x
         end;
  simpl;
  first [ exists []; rewrite app_nil_r; split; [reflexivity | constructor]
        | eexists [_]; split; [reflexivity | repeat constructor] ].

Lemma session_free_file_read env content : session_free (file_read env content).
Proof. session_free_prim. Qed.

Lemma session_free_open_wb_write env name content :
  session_free (open_wb_write env name content).
Proof. session_free_prim. Qed.

Lemma session_free_db_add o : session_free (db_add o).
Proof. session_free_prim. Qed.

Lemma session_free_db_commit env : session_free (db_commit env).
Proof. session_free_prim. Qed.

Lemma session_free_db_rollback : session_free db_rollback.
Proof. session_free_prim. Qed.

Lemma session_free_db_refresh env o : session_free (db_refresh env o).
Proof. session_free_prim. Qed.

Lemma session_free_db_query_all env : session_free (db_query_all env).
Proof. session_free_prim. Qed.

Lemma session_free_path_exists name : session_free (path_exists name).
Proof. session_free_prim. Qed.

Lemma session_free_path_unlink name : session_free (path_unlink name).
Proof. session_free_prim. Qed.

Create HintDb session_free.
#[local] Hint Resolve session_free_file_read session_free_open_wb_write
  session_free_db_add session_free_db_commit session_free_db_rollback
  session_free_db_refresh session_free_db_query_all session_free_path_exists
  session_free_path_unlink : session_free.

Ltac session_free_step :=
  first [ apply session_free_bind; [|intros ?]
        | apply session_free_try_except; [|intros ?]
        | apply session_free_ret
        | apply session_free_raise
        | solve [auto with session_free]
        | match goal with
          | |- session_free (if ?b then _ else _) => destruct b
          | |- session_free (match ?e with _ => _ end) => destruct e
          end ].

Lemma session_free_upload_document env f : session_free (upload_document env f).
Proof. unfold upload_document, pass. repeat session_free_step. Qed.

Lemma session_free_get_files env : session_free (get_files env).
Proof. unfold get_files. repeat session_free_step. Qed.

Lemma get_db_log {A} (request : M A) (w : World) :
  session_free request ->
  exists mid,
    log (snd (get_db request w)) = log w ++ [SessionOpened] ++ mid ++ [SessionClosed]
    /\ Forall (fun e => is_session_event e = false) mid.
Proof.
  intros Hs. unfold get_db, try_finally.
  destruct (Hs (SessionLocal w)) as (mid & E & F).
  destruct (request (SessionLocal w)) as [r w1]. simpl in *.
  exists mid. rewrite E. simpl. rewrite <- !app_assoc. auto.
Qed.

(** C8. Whatever the request, the environment and the world, handling the
    request opens a session first, closes it last, and opens or closes no
    session in between: the events it adds to the log are
    [SessionOpened], then events that are not session events, then
    [SessionClosed]. *)
Theorem one_session_per_request (env : Env) (req : Request) (w : World) :
  exists mid,
    log (snd (app env req w)) = log w ++ [SessionOpened] ++ mid ++ [SessionClosed]
    /\ Forall (fun e => is_session_event e = false) mid.
Proof.
  destruct req as [[f|]|]; unfold app; [destruct (filename f)|..].
  - destruct (get_db_log (upload_document env f) w
                (session_free_upload_document env f)) as (mid & E & F).
    destruct (get_db (upload_document env f) w). exists mid. auto.
  - destruct (get_db_log (@raise schemas.FileUploadResponse RequestValidationError) w
                (session_free_raise _)) as (mid & E & F).
    destruct (get_db (raise RequestValidationError) w). exists mid. auto.
  - destruct (get_db_log (@raise schemas.FileUploadResponse RequestValidationError) w
                (session_free_raise _)) as (mid & E & F).
    destruct (get_db (raise RequestValidationError) w). exists mid. auto.
  - destruct (get_db_log (get_files env) w (session_free_get_files env))
      as (mid & E & F).
    destruct (get_db (get_files env) w). exists mid. auto.
Qed.

(** * Further properties of the handlers *)

(** ** Every path through the upload handler *)

Lemma run_no_part (env : Env) (w : World) :
  app env (POST_upload_document None) w =
    (mkResponse 422 (DetailBody "Field required"),
     mkWorld (uploaded_files w) (files_table w) []
             (log w ++ [SessionOpened; SessionClosed])).
Proof. unfold_glue. norm_world. reflexivity. Qed.

Lemma run_absent_filename (env : Env) (w : World) (f : UploadFile) :
  filename f = None ->
  app env (POST_upload_document (Some f)) w =
    (mkResponse 422 (DetailBody "Field required"),
     mkWorld (uploaded_files w) (files_table w) []
             (log w ++ [SessionOpened; SessionClosed])).
Proof. intros H. unfold_glue. rewrite H. norm_world. reflexivity. Qed.

Lemma run_empty_filename (env : Env) (w : World) (f : UploadFile) :
  filename f = Some "" ->
  app env (POST_upload_document (Some f)) w =
    (mkResponse 400 (DetailBody "No filename provided"),
     mkWorld (uploaded_files w) (files_table w) []
             (log w ++ [SessionOpened; SessionClosed])).
Proof.
  intros H. unfold_glue. rewrite H. change (truthy (Some "")) with false.
  norm_world. reflexivity.
Qed.

Lemma run_query_fault (env : Env) (w : World) (flt : db_fault) :
  query_fault env = Some flt ->
  app env GET_files w =
    (mkResponse 500
       (DetailBody (match flt with
                    | StoreFault msg => "Database error: " +:+ msg
                    | OtherFault msg => "Error retrieving files: " +:+ msg
                    end)),
     mkWorld (uploaded_files w) (files_table w) []
             (log w ++ [SessionOpened; SessionClosed])).
Proof.
  intros H. unfold_glue. rewrite H. destruct flt; norm_world; reflexivity.
Qed.

Section EarlyFailures.

Variables (env : Env) (w : World) (f : UploadFile) (n : string).
Hypothesis Hnamed : named f n.

Ltac enter_try :=
  destruct Hnamed as [Hn Hne]; unfold_glue; rewrite Hn, (truthy_Some n Hne).

Ltac pass_size_checks Hne' Hsz :=
  rewrite (gtb_MAX_false _ Hsz);
  replace (Z.of_nat (length (file f)) =? 0) with false
    by (symmetry; apply Z.eqb_neq; rewrite length_zero_iff; exact Hne').

Lemma run_read_fault (msg : string) :
  read_fault env = Some msg ->
  app env (POST_upload_document (Some f)) w
  = path_result env w f n (ReadFails msg).
Proof.
  intros Hr. enter_try. rewrite Hr. norm_world. reflexivity.
Qed.

Lemma run_too_large :
  read_fault env = None -> MAX_FILE_SIZE < Z.of_nat (length (file f)) ->
  app env (POST_upload_document (Some f)) w
  = path_result env w f n TooLarge.
Proof.
  intros Hr Hlen. enter_try. rewrite Hr, (gtb_MAX_true _ Hlen).
  norm_world. reflexivity.
Qed.

Lemma run_empty :
  read_fault env = None -> file f = [] ->
  app env (POST_upload_document (Some f)) w
  = path_result env w f n EmptyPayload.
Proof.
  intros Hr Hf. enter_try. rewrite Hr, Hf.
  change (Z.of_nat (length (@nil Byte.byte))) with 0.
  change (0 >? MAX_FILE_SIZE) with false. change (0 =? 0) with true.
  norm_world. reflexivity.
Qed.

Lemma run_open_fault (msg : string) :
  sized env f -> open_fault env = Some msg ->
  app env (POST_upload_document (Some f)) w
  = path_result env w f n (OpenFails msg).
Proof.
  intros (Hr & Hne' & Hsz) Ho. enter_try. rewrite Hr.
  pass_size_checks Hne' Hsz. rewrite Ho. norm_world. reflexivity.
Qed.

Lemma run_write_fault (stored : nat) (msg : string) :
  sized env f -> open_fault env = None ->
  write_fault env = Some (stored, msg) ->
  app env (POST_upload_document (Some f)) w
  = path_result env w f n (WriteFails stored msg).
Proof.
  intros (Hr & Hne' & Hsz) Ho Hw. enter_try. rewrite Hr.
  pass_size_checks Hne' Hsz. rewrite Ho, Hw. norm_world. reflexivity.
Qed.

(** Each path's condition determines the whole outcome. *)
Lemma upload_path_run (p : UploadPath) :
  path_cond env w f n p ->
  app env (POST_upload_document (Some f)) w = path_result env w f n p.
Proof.
  destruct p; simpl path_cond.
  - apply run_read_fault.
  - intros [Hr Hlen]. apply run_too_large; assumption.
  - intros [Hr Hf]. apply run_empty; assumption.
  - intros [Hs Ho]. apply run_open_fault; assumption.
  - intros (Hs & Ho & Hw). apply run_write_fault; assumption.
  - intros (((Hr & Hne' & Hsz) & Ho & Hw) & Hc).
    rewrite (run_store_error env w f n Hnamed Hr Hne' Hsz Ho Hw msg Hc).
    reflexivity.
  - intros (((Hr & Hne' & Hsz) & Ho & Hw) & Hc).
    rewrite (run_commit_other_error env w f n Hnamed Hr Hne' Hsz Ho Hw msg).
    + reflexivity.
    + unfold commit_outcome. rewrite Hc. reflexivity.
  - intros ((((Hr & Hne' & Hsz) & Ho & Hw) & Hc & Hfresh) & Hrf).
    rewrite (run_refresh_store_error env w f n Hnamed Hr Hne' Hsz Ho Hw msg
               Hc Hfresh Hrf).
    reflexivity.
  - intros ((((Hr & Hne' & Hsz) & Ho & Hw) & Hc & Hfresh) & Hrf).
    rewrite (run_refresh_other_error env w f n Hnamed Hr Hne' Hsz Ho Hw msg
               Hc Hfresh Hrf).
    reflexivity.
  - intros ((((Hr & Hne' & Hsz) & Ho & Hw) & Hc & Hfresh) & Hrf).
    rewrite (run_committed env w f n Hnamed Hr Hne' Hsz Ho Hw Hc Hfresh Hrf).
    reflexivity.
Qed.

(** Some path is always taken. *)
Lemma upload_path_exists : exists p, path_cond env w f n p.
Proof.
  destruct (read_fault env) as [m|] eqn:Hr; [exists (ReadFails m); exact Hr|].
  destruct (Z.ltb_spec MAX_FILE_SIZE (Z.of_nat (length (file f)))) as [Hgt|Hsz];
    [exists TooLarge; split; assumption|].
  destruct (Z.eqb_spec (Z.of_nat (length (file f))) 0) as [Hz|Hnz];
    [exists EmptyPayload; split; [exact Hr | apply length_zero_iff, Hz]|].
  assert (Hs : sized env f).
  { split; [exact Hr|]. split; [|exact Hsz].
    intros E. apply Hnz, length_zero_iff, E. }
  destruct (open_fault env) as [m|] eqn:Ho.
  { exists (OpenFails m). simpl. auto. }
  destruct (write_fault env) as [[k m]|] eqn:Hw.
  { exists (WriteFails k m). simpl. auto. }
  assert (Hwr : written env f) by (unfold written; auto).
  destruct (commit_fault env) as [[m|m]|] eqn:Hc.
  { exists (CommitStoreError m). simpl. split; [exact Hwr|].
    unfold commit_outcome. rewrite Hc. reflexivity. }
  { exists (CommitOtherError m). simpl. auto. }
  destruct (has_system_filename (storage_name env n) (files_table w)) eqn:Hfresh.
  { exists (CommitStoreError unique_violation). simpl. split; [exact Hwr|].
    unfold commit_outcome. rewrite Hc, flush_single. simpl.
    rewrite Hfresh. reflexivity. }
  assert (Hcm : committed env w f n) by (unfold committed; auto).
  destruct (refresh_fault env) as [[m|m]|] eqn:Hrf.
  - exists (RefreshStoreError m). simpl. auto.
  - exists (RefreshOtherError m). simpl. auto.
  - exists Accepted. simpl. auto.
Qed.

End EarlyFailures.

(** Every request either leaves directory and table alone, adding only
    the two session events, or is an upload that follows one of the
    paths. *)
Lemma request_cases (env : Env) (req : Request) (w : World) :
  (exists resp,
     app env req w =
       (resp, mkWorld (uploaded_files w) (files_table w) []
                      (log w ++ [SessionOpened; SessionClosed])))
  \/ (exists f n p,
        req = POST_upload_document (Some f) /\ named f n
        /\ path_cond env w f n p
        /\ app env req w = path_result env w f n p).
Proof.
  destruct req as [[f|]|].
  - destruct (truthy (filename f)) eqn:Ht.
    + right. destruct (filename f) as [[|c s]|] eqn:Hn; try discriminate Ht.
      assert (Hnamed : named f (String c s)) by (split; [exact Hn | discriminate]).
      destruct (upload_path_exists env w f (String c s)) as [p Hp].
      exists f, (String c s), p. repeat split; try assumption.
      * discriminate.
      * apply upload_path_run; assumption.
    + left. destruct (filename f) as [[|c s]|] eqn:Hn; try discriminate Ht.
      * eexists. apply run_empty_filename. exact Hn.
      * eexists. apply run_absent_filename. exact Hn.
  - left. eexists. apply run_no_part.
  - left. destruct (query_fault env) as [flt|] eqn:Hq.
    + eexists. apply run_query_fault. exact Hq.
    + eexists. apply run_get_files. exact Hq.
Qed.

Lemma path_status (env : Env) (w : World) (f : UploadFile) (n : string)
    (p : UploadPath) :
  status (fst (path_result env w f n p)) = match p with Accepted => 201 | _ => 500 end.
Proof. destruct p; reflexivity. Qed.

(** ** Answers of the upload route *)

(** X1. A request whose body has the [file] field is answered 201, 400,
    422 or 500: 400 exactly when the field is a file part with an empty
    [filename] parameter, 422 exactly when the field has no [filename]
    parameter. The two size checks never surface as 400. *)
Theorem upload_400_only_for_empty_filename (env : Env) (w : World) (f : UploadFile) :
  let s := status (fst (app env (POST_upload_document (Some f)) w)) in
  (s =? 400) = empty_filename f
  /\ (s =? 422) = absent_filename f
  /\ (s = 201 \/ s = 400 \/ s = 422 \/ s = 500).
Proof.
  cbv zeta. unfold empty_filename, absent_filename.
  destruct (filename f) as [[|c s]|] eqn:Hn.
  - rewrite (run_empty_filename env w f Hn). simpl. repeat split; lia.
  - assert (Hnamed : named f (String c s)) by (split; [exact Hn | discriminate]).
    destruct (upload_path_exists env w f (String c s)) as [p Hp].
    rewrite (upload_path_run env w f _ Hnamed p Hp), path_status.
    destruct p; simpl; repeat split; lia.
  - rewrite (run_absent_filename env w f Hn). simpl. repeat split; lia.
Qed.

(** X2. When reading the payload fails, the answer is 500 with the
    error's text, and neither the directory nor the table changes. *)
Theorem read_failure_yields_500 (env : Env) (w : World) (f : UploadFile)
    (n msg : string) :
  named f n -> read_fault env = Some msg ->
  exists w',
    app env (POST_upload_document (Some f)) w =
      (mkResponse 500 (DetailBody ("Error uploading file: " +:+ msg)), w')
    /\ uploaded_files w' = uploaded_files w
    /\ files_table w' = files_table w.
Proof.
  intros Hnamed Hr. rewrite (run_read_fault env w f n Hnamed msg Hr).
  eexists. repeat split.
Qed.

Lemma read_failure_yields_500_witness :
  exists w',
    app env_read_fails (POST_upload_document (Some report)) w0 =
      (mkResponse 500 (DetailBody ("Error uploading file: " +:+ "connection reset")), w')
    /\ uploaded_files w' = uploaded_files w0
    /\ files_table w' = files_table w0.
Proof.
  apply (read_failure_yields_500 env_read_fails w0 report "report.pdf").
  - split; [reflexivity | discriminate].
  - reflexivity.
Defined.

(** X3. When the file cannot be opened for writing, the answer is 500
    with the error's text; no file is created and no row is inserted. *)
Theorem open_failure_yields_500 (env : Env) (w : World) (f : UploadFile)
    (n msg : string) :
  named f n -> sized env f -> open_fault env = Some msg ->
  exists w',
    app env (POST_upload_document (Some f)) w =
      (mkResponse 500 (DetailBody ("Error uploading file: " +:+ msg)), w')
    /\ uploaded_files w' = uploaded_files w
    /\ files_table w' = files_table w.
Proof.
  intros Hnamed Hs Ho. rewrite (run_open_fault env w f n Hnamed msg Hs Ho).
  eexists. repeat split.
Qed.

Lemma open_failure_yields_500_witness :
  exists w',
    app env_open_fails (POST_upload_document (Some report)) w0 =
      (mkResponse 500 (DetailBody ("Error uploading file: " +:+ "permission denied")), w')
    /\ uploaded_files w' = uploaded_files w0
    /\ files_table w' = files_table w0.
Proof.
  apply (open_failure_yields_500 env_open_fails w0 report "report.pdf").
  - split; [reflexivity | discriminate].
  - repeat split; [discriminate | vm_compute; discriminate].
  - reflexivity.
Defined.

(** X4. When the write fails part-way, the answer is 500 and the
    truncated file stays in the directory under the generated name,
    holding the bytes that were stored; nothing is unlinked and no row is
    inserted. *)
Theorem write_failure_leaves_partial_file (env : Env) (w : World) (f : UploadFile)
    (n msg : string) (stored : nat) :
  named f n -> sized env f -> open_fault env = None ->
  write_fault env = Some (stored, msg) ->
  exists w',
    app env (POST_upload_document (Some f)) w =
      (mkResponse 500 (DetailBody ("Error uploading file: " +:+ msg)), w')
    /\ uploaded_files w' !! storage_name env n = Some (take stored (file f))
    /\ Forall (fun e => is_unlink e = false) (new_events w w')
    /\ files_table w' = files_table w.
Proof.
  intros Hnamed Hs Ho Hw.
  rewrite (run_write_fault env w f n Hnamed stored msg Hs Ho Hw).
  eexists. split; [reflexivity|].
  unfold new_events. run. rewrite lookup_insert_eq, drop_app_length.
  repeat split. repeat constructor.
Qed.

Lemma write_failure_leaves_partial_file_witness :
  exists w',
    app env_write_fails (POST_upload_document (Some report)) w0 =
      (mkResponse 500
         (DetailBody ("Error uploading file: " +:+ "no space left on device")), w')
    /\ uploaded_files w' !! storage_name env_write_fails "report.pdf"
       = Some (take 1 (file report))
    /\ Forall (fun e => is_unlink e = false) (new_events w0 w')
    /\ files_table w' = files_table w0.
Proof.
  apply (write_failure_leaves_partial_file env_write_fails w0 report "report.pdf").
  - split; [reflexivity | discriminate].
  - repeat split; [discriminate | vm_compute; discriminate].
  - reflexivity.
  - reflexivity.
Defined.

(** X5. When [db.refresh()] raises a store error, the commit has already
    gone through: the answer is 500 with the store's message, the file is
    unlinked, and the new row stays in the table, naming a file that is
    no longer there. *)
Theorem refresh_store_error_orphans_row (env : Env) (w : World) (f : UploadFile)
    (n msg : string) :
  named f n -> committed env w f n ->
  refresh_fault env = Some (StoreFault msg) ->
  exists w',
    app env (POST_upload_document (Some f)) w =
      (mkResponse 500 (DetailBody ("Database error: " +:+ msg)), w')
    /\ files_table w' = files_table w ++ [inserted_row env w f n]
    /\ uploaded_files w' !! models.system_filename (inserted_row env w f n) = None
    /\ ~ every_row_has_file w'.
Proof.
  intros Hnamed Hc Hrf.
  rewrite (upload_path_run env w f n Hnamed (RefreshStoreError msg) (conj Hc Hrf)).
  eexists. split; [reflexivity|].
  unfold every_row_has_file. run. rewrite lookup_delete_eq. repeat split.
  intros Hall.
  destruct (Hall (inserted_row env w f n)) as [x Hx].
  - apply elem_of_app. right. apply list_elem_of_singleton. reflexivity.
  - run. rewrite lookup_delete_eq in Hx. discriminate Hx.
Qed.

Lemma refresh_store_error_orphans_row_witness :
  exists w',
    app env_refresh_store_error (POST_upload_document (Some report)) w0 =
      (mkResponse 500 (DetailBody ("Database error: " +:+ "database is locked")), w')
    /\ files_table w' =
         files_table w0 ++ [inserted_row env_refresh_store_error w0 report "report.pdf"]
    /\ uploaded_files w' !!
         models.system_filename
           (inserted_row env_refresh_store_error w0 report "report.pdf") = None
    /\ ~ every_row_has_file w'.
Proof.
  apply (refresh_store_error_orphans_row env_refresh_store_error w0 report
           "report.pdf").
  - split; [reflexivity | discriminate].
  - repeat split; [discriminate | vm_compute; discriminate].
  - reflexivity.
Defined.

Lemma has_system_filename_elem (name : string) (rows : list models.File)
    (r : models.File) :
  r ∈ rows -> models.system_filename r = name ->
  has_system_filename name rows = true.
Proof.
  intros Hin Hname. unfold has_system_filename. apply existsb_exists.
  exists r. split; [apply list_elem_of_In, Hin|].
  rewrite Hname. apply String.eqb_refl.
Qed.

(** X6. When the generated name is already the [system_filename] of a
    row, the new payload is written over that row's file before the
    insert is attempted; the insert then fails on the uniqueness
    constraint and the clean-up unlinks the file. The answer is 500, the
    older row is still in the table, and its file is gone. *)
Theorem name_collision_destroys_existing_file (env : Env) (w : World)
    (f : UploadFile) (n : string) (r : models.File) :
  named f n -> written env f -> commit_fault env = None ->
  r ∈ files_table w ->
  models.system_filename r = storage_name env n ->
  exists w',
    app env (POST_upload_document (Some f)) w =
      (mkResponse 500 (DetailBody ("Database error: " +:+ unique_violation)), w')
    /\ r ∈ files_table w'
    /\ uploaded_files w' !! models.system_filename r = None.
Proof.
  intros Hnamed Hwr Hc Hin Hname.
  assert (Hp : path_cond env w f n (CommitStoreError unique_violation)).
  { split; [exact Hwr|]. unfold commit_outcome. rewrite Hc, flush_single.
    simpl. rewrite (has_system_filename_elem _ _ r Hin Hname). reflexivity. }
  rewrite (upload_path_run env w f n Hnamed _ Hp).
  eexists. split; [reflexivity|]. run. split; [exact Hin|].
  rewrite Hname. apply lookup_delete_eq.
Qed.

Lemma name_collision_destroys_existing_file_witness :
  exists w',
    app env0 (POST_upload_document (Some report)) w_taken =
      (mkResponse 500 (DetailBody ("Database error: " +:+ unique_violation)), w')
    /\ models.mkFile 1 "old.pdf" "tok.pdf" 1 3 ∈ files_table w'
    /\ uploaded_files w' !!
         models.system_filename (models.mkFile 1 "old.pdf" "tok.pdf" 1 3) = None.
Proof.
  apply (name_collision_destroys_existing_file env0 w_taken report "report.pdf").
  - split; [reflexivity | discriminate].
  - repeat split; [discriminate | vm_compute; discriminate].
  - reflexivity.
  - apply list_elem_of_singleton. reflexivity.
  - reflexivity.
Defined.

(** X7. With no failing call and a new name, a named upload is accepted
    exactly when its payload has between 1 and [MAX_FILE_SIZE] bytes. *)
Theorem accepted_iff_size_in_range (env : Env) (w : World) (f : UploadFile)
    (n : string) :
  named f n -> no_fault env -> fresh_name (storage_name env n) w ->
  (status (fst (app env (POST_upload_document (Some f)) w)) =? 201)
  = (0 <? Z.of_nat (length (file f)))
    && (Z.of_nat (length (file f)) <=? MAX_FILE_SIZE).
Proof.
  intros Hnamed (Hr & Ho & Hw & Hc & Hrf) [Hdisk Hfresh].
  destruct (Z.leb_spec (Z.of_nat (length (file f))) MAX_FILE_SIZE) as [Hsz|Hgt].
  - destruct (Z.ltb_spec 0 (Z.of_nat (length (file f)))) as [Hpos|Hz].
    + assert (Hne : file f <> []).
      { intros E. rewrite E in Hpos. simpl in Hpos. lia. }
      rewrite (run_committed env w f n Hnamed Hr Hne Hsz Ho Hw Hc Hfresh Hrf).
      reflexivity.
    + assert (Hf : file f = []) by (apply length_zero_iff; lia).
      rewrite (run_empty env w f n Hnamed Hr Hf). reflexivity.
  - rewrite (run_too_large env w f n Hnamed Hr Hgt).
    rewrite andb_false_r. reflexivity.
Qed.

Lemma accepted_iff_size_in_range_witness :
  (status (fst (app env0 (POST_upload_document (Some report)) w0)) =? 201)
  = (0 <? Z.of_nat (length (file report)))
    && (Z.of_nat (length (file report)) <=? MAX_FILE_SIZE).
Proof.
  apply (accepted_iff_size_in_range env0 w0 report "report.pdf").
  - split; [reflexivity | discriminate].
  - repeat split.
  - split; reflexivity.
Defined.

(** ** What no request ever does *)

(** The table after a request: as before, or one row longer, the row
    being the one a committed upload inserts. *)
Lemma table_step (env : Env) (req : Request) (w : World) :
  files_table (snd (app env req w)) = files_table w
  \/ exists f n,
       req = POST_upload_document (Some f) /\ named f n
       /\ committed env w f n
       /\ files_table (snd (app env req w))
          = files_table w ++ [inserted_row env w f n].
Proof.
  destruct (request_cases env req w) as [[resp E]|(f & n & p & Ef & Hnamed & Hp & E)];
    rewrite E; [left; reflexivity|].
  destruct p; simpl in Hp;
    try (left; reflexivity);
    right; exists f, n;
    (split; [exact Ef|]); (split; [exact Hnamed|]);
    (split; [apply Hp | reflexivity]).
Qed.

(** X8. The table is append-only: every request leaves the rows that
    were there in place and in order, and adds at most one row. *)
Theorem table_is_append_only (env : Env) (req : Request) (w : World) :
  exists added,
    files_table (snd (app env req w)) = files_table w ++ added
    /\ (length added <= 1)%nat.
Proof.
  destruct (table_step env req w) as [E|(f & n & _ & _ & _ & E)]; rewrite E.
  - exists []. rewrite app_nil_r. split; [reflexivity | simpl; lia].
  - eexists. split; [reflexivity | simpl; lia].
Qed.

Lemma has_system_filename_false (name : string) (rows : list models.File) :
  has_system_filename name rows = false ->
  name ∉ List.map models.system_filename rows.
Proof.
  intros H Hin. apply list_elem_of_In, in_map_iff in Hin as (r & Hr & Hin).
  apply list_elem_of_In in Hin.
  rewrite (has_system_filename_elem name rows r Hin Hr) in H. discriminate H.
Qed.

(** X9. The uniqueness of [system_filename] is an invariant: if no two
    rows share a storage name before a request, none do after it. *)
Theorem system_filenames_stay_unique (env : Env) (req : Request) (w : World) :
  NoDup (List.map models.system_filename (files_table w)) ->
  NoDup (List.map models.system_filename (files_table (snd (app env req w)))).
Proof.
  intros Hnd.
  destruct (table_step env req w) as [E|(f & n & _ & _ & (_ & _ & Hfresh) & E)];
    rewrite E; [exact Hnd|].
  rewrite map_app. apply NoDup_app. split; [exact Hnd|]. split.
  - intros x Hx Hin. simpl in Hin. apply list_elem_of_singleton in Hin. subst x.
    exact (has_system_filename_false _ _ Hfresh Hx).
  - simpl. apply NoDup_singleton.
Qed.

Lemma system_filenames_stay_unique_witness :
  NoDup (List.map models.system_filename
           (files_table (snd (app env0 (POST_upload_document (Some report)) w_three)))).
Proof.
  apply (system_filenames_stay_unique env0 (POST_upload_document (Some report)) w_three).
  apply (bool_decide_unpack _). vm_compute. reflexivity.
Defined.

Lemma fold_max_ge (i : Z) (ids : list Z) (x : Z) :
  In x (i :: ids) -> x <= fold_right Z.max i ids.
Proof.
  induction ids as [|a ids IH]; cbn [fold_right]; intros Hin.
  - destruct Hin as [<-|[]]. lia.
  - destruct Hin as [<-|[<-|Hin]].
    + specialize (IH (or_introl eq_refl)). lia.
    + lia.
    + specialize (IH (or_intror Hin)). lia.
Qed.

Lemma next_id_gt (rows : list models.File) (r : models.File) :
  r ∈ rows -> models.id r < next_id rows.
Proof.
  intros Hin. apply list_elem_of_In in Hin.
  apply (in_map models.id) in Hin. unfold next_id.
  destruct (List.map models.id rows) as [|i ids]; [destruct Hin|].
  pose proof (fold_max_ge i ids _ Hin). lia.
Qed.

Lemma ids_increase_snoc (rows : list models.File) (r : models.File) :
  ids_increase rows -> models.id r = next_id rows -> ids_increase (rows ++ [r]).
Proof.
  unfold ids_increase. intros Hs Hid.
  assert (Hall : Forall (fun x => models.id x < models.id r) rows).
  { apply Forall_forall. intros x Hx. rewrite Hid. apply next_id_gt. exact Hx. }
  clear Hid. induction Hs as [|x rows Hs IH Hx]; simpl.
  - repeat constructor.
  - apply Forall_cons in Hall as [Hxr Hall]. constructor; [auto|].
    apply Forall_app. split; [exact Hx | repeat constructor; exact Hxr].
Qed.

(** X10. Ids are never reused while the table is below the rowid limit:
    if the ids grow strictly along the table and are all below
    [MAX_ROWID] before a request, they grow strictly along the table after
    it, so a new row's id is larger than every id already stored, and it
    is still a valid rowid. *)
Theorem ids_stay_increasing (env : Env) (req : Request) (w : World) :
  ids_increase (files_table w) ->
  Forall (fun r => models.id r < MAX_ROWID) (files_table w) ->
  ids_increase (files_table (snd (app env req w)))
  /\ Forall (fun r => models.id r <= MAX_ROWID) (files_table (snd (app env req w))).
Proof.
  intros Hs Hb.
  assert (Hle : Forall (fun r => models.id r <= MAX_ROWID) (files_table w))
    by (eapply Forall_impl; [exact Hb | intros r Hr; simpl in Hr; lia]).
  destruct (table_step env req w) as [E|(f & n & _ & _ & _ & E)];
    rewrite E; [split; assumption|].
  split; [apply ids_increase_snoc; [exact Hs | reflexivity]|].
  apply Forall_app. split; [exact Hle|]. repeat constructor.
  cbn [inserted_row models.id]. unfold next_id.
  destruct (files_table w) as [|x rows]; [unfold MAX_ROWID; cbn; lia|].
  cbn [List.map].
  assert (Hm : fold_right Z.max (models.id x) (List.map models.id rows) < MAX_ROWID).
  { clear -Hb. apply Forall_cons in Hb as [Hx Hb].
    induction Hb as [|y rows Hy Hb IH]; cbn [List.map fold_right]; lia. }
  lia.
Qed.

Lemma ids_stay_increasing_witness :
  ids_increase
    (files_table (snd (app env0 (POST_upload_document (Some report)) w_three)))
  /\ Forall (fun r => models.id r <= MAX_ROWID)
       (files_table (snd (app env0 (POST_upload_document (Some report)) w_three))).
Proof.
  apply (ids_stay_increasing env0 (POST_upload_document (Some report)) w_three).
  - unfold ids_increase. simpl. repeat constructor.
  - simpl. repeat constructor.
Defined.

(** X11. Every row the handler inserts has a non-empty original name and
    a size between 1 and [MAX_FILE_SIZE]: if all rows satisfy this before
    a request, all do after it. *)
Theorem rows_stay_within_bounds (env : Env) (req : Request) (w : World) :
  Forall row_ok (files_table w) ->
  Forall row_ok (files_table (snd (app env req w))).
Proof.
  intros Hall.
  destruct (table_step env req w)
    as [E|(f & n & _ & [_ Hne] & (((_ & Hnonempty & Hsz) & _) & _) & E)];
    rewrite E; [exact Hall|].
  apply Forall_app. split; [exact Hall|]. repeat constructor; simpl.
  - exact Hne.
  - destruct (file f); [congruence | simpl; lia].
  - exact Hsz.
Qed.

Lemma rows_stay_within_bounds_witness :
  Forall row_ok
    (files_table (snd (app env0 (POST_upload_document (Some report)) w_three))).
Proof.
  apply (rows_stay_within_bounds env0 (POST_upload_document (Some report)) w_three).
  simpl. repeat constructor; simpl; try discriminate; try lia;
    vm_compute; discriminate.
Defined.

(** X12. A request touches at most one file of the upload directory, the
    one under the storage name of its own file part; every other file is
    exactly as it was. *)
Theorem other_files_untouched (env : Env) (req : Request) (w : World) (k : string) :
  target_name env req <> Some k ->
  uploaded_files (snd (app env req w)) !! k = uploaded_files w !! k.
Proof.
  intros Hk.
  destruct (request_cases env req w) as [[resp E]|(f & n & p & Ef & [Hn Hne] & Hp & E)];
    rewrite E; [reflexivity|].
  assert (Hneq : storage_name env n <> k).
  { intros <-. apply Hk. rewrite Ef. simpl. rewrite Hn. reflexivity. }
  destruct p; unfold path_result, failure; run;
    first [ reflexivity
          | apply lookup_insert_ne; exact Hneq
          | apply lookup_delete_ne; exact Hneq ].
Qed.

Lemma other_files_untouched_witness :
  uploaded_files (snd (app env1 (POST_upload_document (Some report)) w_taken))
    !! "tok.pdf"
  = uploaded_files w_taken !! "tok.pdf".
Proof.
  apply (other_files_untouched env1 (POST_upload_document (Some report)) w_taken).
  simpl. unfold storage_name. simpl. discriminate.
Defined.

(** X13. When the listing query fails, the answer is 500: with the
    store's message after "Database error: " for a store error, and with
    the error's text after "Error retrieving files: " otherwise. The
    directory and the table are not changed. *)
Theorem listing_failure_yields_500 (env : Env) (w : World) (flt : db_fault) :
  query_fault env = Some flt ->
  exists w',
    app env GET_files w =
      (mkResponse 500
         (DetailBody (match flt with
                      | StoreFault msg => "Database error: " +:+ msg
                      | OtherFault msg => "Error retrieving files: " +:+ msg
                      end)), w')
    /\ uploaded_files w' = uploaded_files w
    /\ files_table w' = files_table w.
Proof.
  intros Hq. rewrite (run_query_fault env w flt Hq). eexists. repeat split.
Qed.

Lemma listing_failure_yields_500_witness :
  exists w',
    app env_query_fails GET_files w_three =
      (mkResponse 500 (DetailBody ("Database error: " +:+ "database is locked")), w')
    /\ uploaded_files w' = uploaded_files w_three
    /\ files_table w' = files_table w_three.
Proof.
  apply (listing_failure_yields_500 env_query_fails w_three
           (StoreFault "database is locked")).
  reflexivity.
Defined.

Lemma path_new_events (env : Env) (w : World) (f : UploadFile) (n : string)
    (p : UploadPath) :
  exists evs,
    log (snd (path_result env w f n p)) = log w ++ evs
    /\ (Forall (fun e => is_unlink e = false) evs ->
        match p with
        | CommitStoreError _ | RefreshStoreError _ => False
        | _ => True
        end).
Proof.
  destruct p; unfold path_result, failure; run; eexists;
    (split; [reflexivity|]); try (intros _; exact I);
    intros H; rewrite Forall_forall in H;
    specialize (H (Unlinked (storage_name env n)));
    (assert (Hu : is_unlink (Unlinked (storage_name env n)) = false)
       by (apply H; set_solver));
    discriminate Hu.
Qed.

(** X14. Rows lose their files only through the clean-up of the store
    error clause: if every row has its file before a request and the
    request unlinks nothing, every row has its file after it. *)
Theorem rows_keep_files_unless_unlinked (env : Env) (req : Request) (w : World) :
  every_row_has_file w ->
  Forall (fun e => is_unlink e = false) (new_events w (snd (app env req w))) ->
  every_row_has_file (snd (app env req w)).
Proof.
  intros Hinv. unfold new_events.
  destruct (request_cases env req w) as [[resp E]|(f & n & p & Ef & Hnamed & Hp & E)];
    rewrite E; [intros _; exact Hinv|].
  destruct (path_new_events env w f n p) as (evs & Elog & Hno).
  rewrite Elog, drop_app_length. intros Hevs. specialize (Hno Hevs).
  unfold every_row_has_file in *.
  destruct p; try contradiction; unfold path_result, failure; run;
    intros r Hr;
    try (apply elem_of_app in Hr as [Hr|Hr];
         [|apply list_elem_of_singleton in Hr; subst r; run;
           rewrite lookup_insert_eq; eauto]);
    try (exact (Hinv r Hr));
    (destruct (decide (storage_name env n = models.system_filename r)) as [<-|Hneq];
     [rewrite lookup_insert_eq; eauto
     |rewrite lookup_insert_ne by exact Hneq; exact (Hinv r Hr)]).
Qed.

Lemma rows_keep_files_unless_unlinked_witness :
  every_row_has_file (snd (app env1 (POST_upload_document (Some report)) w_taken)).
Proof.
  apply (rows_keep_files_unless_unlinked env1 (POST_upload_document (Some report))
           w_taken).
  - intros r Hr. apply list_elem_of_singleton in Hr. subst r.
    vm_compute. eauto.
  - vm_compute. repeat constructor.
Defined.

(** ** Uploads followed by other requests *)

Lemma order_by_newest_last (rows : list models.File) (r : models.File) :
  Forall (fun x => models.uploaded_at x < models.uploaded_at r) rows ->
  order_by_uploaded_at_desc (rows ++ [r]) = r :: order_by_uploaded_at_desc rows.
Proof.
  induction 1 as [|x rows Hx Hall IH]; [reflexivity|].
  unfold order_by_uploaded_at_desc in *. simpl. rewrite IH. simpl.
  replace (models.uploaded_at r <? models.uploaded_at x) with false
    by (symmetry; apply Z.ltb_ge; lia).
  reflexivity.
Qed.

(** X15. An accepted upload shows in the next listing: the listing
    counts one record more than the table held, and contains a view of
    the new record whose [id] is the [file_id] the upload returned and
    whose name and size are those of the upload. *)
Theorem upload_then_list (env env' : Env) (w : World) (f : UploadFile) (n : string) :
  named f n -> sized env f -> no_fault env ->
  fresh_name (storage_name env n) w ->
  query_fault env' = None ->
  let '(up, w1) := app env (POST_upload_document (Some f)) w in
  exists file_id views view,
    up = mkResponse 201
           (UploadBody (schemas.mkFileUploadResponse "File uploaded successfully"
                          file_id))
    /\ fst (app env' GET_files w1)
       = mkResponse 200
           (FilesBody (schemas.mkFileListResponse views
                         (Z.of_nat (length (files_table w)) + 1)))
    /\ view ∈ views
    /\ schemas.id view = file_id
    /\ schemas.original_filename view = n
    /\ schemas.file_size_bytes view = Z.of_nat (length (file f)).
Proof.
  intros Hnamed (_ & Hne & Hsz) (Hr & Ho & Hw & Hc & Hrf) [_ Hfresh] Hq.
  rewrite (run_committed env w f n Hnamed Hr Hne Hsz Ho Hw Hc Hfresh Hrf).
  run. rewrite (run_get_files env' _ Hq). run.
  eexists (next_id (files_table w)), _, (schemas.from_orm (inserted_row env w f n)).
  split; [reflexivity|]. split.
  - do 3 f_equal. rewrite length_map.
    rewrite (Permutation_length (order_by_perm _)), length_app. simpl. lia.
  - split; [|repeat split].
    apply list_elem_of_In, in_map, list_elem_of_In.
    rewrite order_by_perm. apply elem_of_app. right.
    apply list_elem_of_singleton. reflexivity.
Qed.

Lemma upload_then_list_witness :
  let '(up, w1) := app env0 (POST_upload_document (Some report)) w_three in
  exists file_id views view,
    up = mkResponse 201
           (UploadBody (schemas.mkFileUploadResponse "File uploaded successfully"
                          file_id))
    /\ fst (app env1 GET_files w1)
       = mkResponse 200
           (FilesBody (schemas.mkFileListResponse views
                         (Z.of_nat (length (files_table w_three)) + 1)))
    /\ view ∈ views
    /\ schemas.id view = file_id
    /\ schemas.original_filename view = "report.pdf"
    /\ schemas.file_size_bytes view = Z.of_nat (length (file report)).
Proof.
  apply (upload_then_list env0 env1 w_three report "report.pdf").
  - split; [reflexivity | discriminate].
  - repeat split; [discriminate | vm_compute; discriminate].
  - repeat split.
  - split; reflexivity.
  - reflexivity.
Defined.

(** X16. When the clock at the upload is later than every [uploaded_at]
    in the table, the new record is the first of the next listing. *)
Theorem newest_upload_listed_first (env env' : Env) (w : World) (f : UploadFile)
    (n : string) :
  named f n -> sized env f -> no_fault env ->
  fresh_name (storage_name env n) w ->
  query_fault env' = None ->
  Forall (fun r => models.uploaded_at r < utcnow env) (files_table w) ->
  exists views,
    fst (app env' GET_files (snd (app env (POST_upload_document (Some f)) w)))
    = mkResponse 200
        (FilesBody
           (schemas.mkFileListResponse
              (schemas.from_orm (inserted_row env w f n) :: views)
              (Z.of_nat (S (length views)))))
    /\ fst (app env' GET_files w)
       = mkResponse 200
           (FilesBody (schemas.mkFileListResponse views (Z.of_nat (length views)))).
Proof.
  intros Hnamed (_ & Hne & Hsz) (Hr & Ho & Hw & Hc & Hrf) [_ Hfresh] Hq Hnew.
  rewrite (run_committed env w f n Hnamed Hr Hne Hsz Ho Hw Hc Hfresh Hrf).
  rewrite !(run_get_files env' _ Hq). run.
  rewrite (order_by_newest_last (files_table w) (inserted_row env w f n) Hnew).
  eexists. split; reflexivity.
Qed.

Lemma newest_upload_listed_first_witness :
  exists views,
    fst (app env1 GET_files
           (snd (app (mkEnv "tok" 400 None None None None None None)
                     (POST_upload_document (Some report)) w_three)))
    = mkResponse 200
        (FilesBody
           (schemas.mkFileListResponse
              (schemas.from_orm
                 (inserted_row (mkEnv "tok" 400 None None None None None None)
                               w_three report "report.pdf") :: views)
              (Z.of_nat (S (length views)))))
    /\ fst (app env1 GET_files w_three)
       = mkResponse 200
           (FilesBody (schemas.mkFileListResponse views (Z.of_nat (length views)))).
Proof.
  apply (newest_upload_listed_first
           (mkEnv "tok" 400 None None None None None None) env1 w_three report
           "report.pdf").
  - split; [reflexivity | discriminate].
  - repeat split; [discriminate | vm_compute; discriminate].
  - repeat split.
  - split; reflexivity.
  - reflexivity.
  - simpl. repeat constructor; simpl; lia.
Defined.

Lemma fold_max_base (k i : Z) (ids : list Z) :
  fold_right Z.max (Z.max k i) ids = Z.max k (fold_right Z.max i ids).
Proof.
  induction ids as [|a ids IH]; cbn [fold_right]; [reflexivity|].
  rewrite IH. lia.
Qed.

Lemma next_id_snoc (rows : list models.File) (r : models.File) :
  models.id r = next_id rows -> next_id (rows ++ [r]) = next_id rows + 1.
Proof.
  unfold next_id. rewrite map_app. cbn [List.map].
  destruct (List.map models.id rows) as [|i ids]; intros Hr.
  - cbn. lia.
  - cbn [List.app]. rewrite fold_right_app. cbn [fold_right].
    rewrite fold_max_base. lia.
Qed.

(** X17. Uploads are not idempotent: sending the same file part twice,
    each time with a new token, is accepted twice and leaves two rows with
    different storage names and two files holding the payload; while the
    table is two below the rowid limit, the second row's id is the larger
    one. *)
Theorem repeated_upload_adds_second_record (env env' : Env) (w : World)
    (f : UploadFile) (n : string) :
  named f n -> sized env f ->
  no_fault env -> no_fault env' ->
  fresh_name (storage_name env n) w ->
  fresh_name (storage_name env' n) w ->
  storage_name env n <> storage_name env' n ->
  Forall (fun r => models.id r < MAX_ROWID - 1) (files_table w) ->
  let '(r1, w1) := app env (POST_upload_document (Some f)) w in
  let '(r2, w2) := app env' (POST_upload_document (Some f)) w1 in
  exists row1 row2,
    status r1 = 201 /\ status r2 = 201
    /\ files_table w2 = files_table w ++ [row1; row2]
    /\ models.id row1 < models.id row2
    /\ models.system_filename row1 = storage_name env n
    /\ models.system_filename row2 = storage_name env' n
    /\ uploaded_files w2 !! storage_name env n = Some (file f)
    /\ uploaded_files w2 !! storage_name env' n = Some (file f).
Proof.
  intros Hnamed (_ & Hne & Hsz) (Hr & Ho & Hw & Hc & Hrf)
         (Hr' & Ho' & Hw' & Hc' & Hrf') [_ Hfresh] [_ Hfresh'] Hneq _.
  rewrite (run_committed env w f n Hnamed Hr Hne Hsz Ho Hw Hc Hfresh Hrf).
  cbv beta iota zeta.
  match goal with
  | |- context [app env' _ ?w1] =>
      assert (Hfresh1 : has_system_filename (storage_name env' n) (files_table w1)
                        = false)
  end.
  { run. unfold has_system_filename in *. rewrite existsb_app, Hfresh'. simpl.
    rewrite orb_false_r. apply String.eqb_neq. exact Hneq. }
  rewrite (run_committed env' _ f n Hnamed Hr' Hne Hsz Ho' Hw' Hc' Hfresh1 Hrf').
  run. eexists _, _.
  split; [reflexivity|]. split; [reflexivity|].
  split; [rewrite <- app_assoc; reflexivity|].
  split; [unfold inserted_row; run; rewrite next_id_snoc by reflexivity; lia|].
  split; [reflexivity|]. split; [reflexivity|]. split.
  - rewrite lookup_insert_ne by (intros E; apply Hneq; symmetry; exact E).
    apply lookup_insert_eq.
  - apply lookup_insert_eq.
Qed.

Lemma repeated_upload_adds_second_record_witness :
  let '(r1, w1) := app env0 (POST_upload_document (Some report)) w0 in
  let '(r2, w2) := app env1 (POST_upload_document (Some report)) w1 in
  exists row1 row2,
    status r1 = 201 /\ status r2 = 201
    /\ files_table w2 = files_table w0 ++ [row1; row2]
    /\ models.id row1 < models.id row2
    /\ models.system_filename row1 = storage_name env0 "report.pdf"
    /\ models.system_filename row2 = storage_name env1 "report.pdf"
    /\ uploaded_files w2 !! storage_name env0 "report.pdf" = Some (file report)
    /\ uploaded_files w2 !! storage_name env1 "report.pdf" = Some (file report).
Proof.
  apply (repeated_upload_adds_second_record env0 env1 w0 report "report.pdf").
  - split; [reflexivity | discriminate].
  - repeat split; [discriminate | vm_compute; discriminate].
  - repeat split.
  - repeat split.
  - split; reflexivity.
  - split; reflexivity.
  - vm_compute. discriminate.
  - constructor.
Defined.

(** ** The extension and the storage name *)

Lemma rfind_cons_None (c a : ascii) (s : string) :
  Pathlib.rfind c (String a s) = None <->
  Ascii.eqb a c = false /\ Pathlib.rfind c s = None.
Proof.
  simpl. destruct (Pathlib.rfind c s); [split; [discriminate | intros [_ H]; discriminate]|].
  destruct (Ascii.eqb a c); split; try discriminate; auto.
  intros [H _]. discriminate.
Qed.

Lemma split_pieces_no_sep (sep : ascii) (s : string) :
  Forall (fun x => Pathlib.rfind sep x = None) (Pathlib.split sep s).
Proof.
  induction s as [|a s IH]; cbn [Pathlib.split].
  - repeat constructor.
  - destruct (Ascii.eqb a sep) eqn:Ha.
    + constructor; [reflexivity | exact IH].
    + destruct (Pathlib.split sep s) as [|hd tl].
      * constructor; [|constructor]. apply rfind_cons_None. auto.
      * apply Forall_cons in IH as [Hhd Htl].
        constructor; [|exact Htl]. apply rfind_cons_None. auto.
Qed.

Lemma last_default_or_In {A} (l : list A) (d : A) :
  List.last l d = d \/ In (List.last l d) l.
Proof.
  induction l as [|x l IH]; [left; reflexivity|].
  destruct l as [|y l]; [right; left; reflexivity|].
  change (List.last (x :: y :: l) d) with (List.last (y :: l) d).
  destruct IH as [E|Hin]; [left; exact E | right; right; exact Hin].
Qed.

Lemma name_no_sep (p : string) : Pathlib.rfind "/"%char (Pathlib.name p) = None.
Proof.
  unfold Pathlib.name, Pathlib.parts.
  destruct (last_default_or_In
              (List.filter (fun x => negb (String.eqb x "" || String.eqb x "."))
                           (Pathlib.split "/"%char p)) "") as [E|Hin].
  - rewrite E. reflexivity.
  - apply filter_In in Hin as [Hin _].
    pose proof (split_pieces_no_sep "/"%char p) as Hall.
    rewrite Forall_forall in Hall. apply Hall, list_elem_of_In, Hin.
Qed.

Lemma rfind_drop_None (c : ascii) (s : string) (i : nat) :
  Pathlib.rfind c s = None -> Pathlib.rfind c (Pathlib.drop i s) = None.
Proof.
  revert s. induction i as [|i IH]; intros s H; [exact H|].
  destruct s as [|a s]; [reflexivity|].
  cbn [Pathlib.drop]. apply IH. apply rfind_cons_None in H. apply H.
Qed.

Lemma rfind_Some_drop (c : ascii) (s : string) (i : nat) :
  Pathlib.rfind c s = Some i ->
  exists rest,
    Pathlib.drop i s = String c rest
    /\ Pathlib.rfind c rest = None
    /\ String.length s = (i + 1 + String.length rest)%nat.
Proof.
  revert i. induction s as [|a s IH]; intros i H; [discriminate H|].
  cbn [Pathlib.rfind] in H. destruct (Pathlib.rfind c s) as [j|] eqn:Hj.
  - injection H as <-. destruct (IH j eq_refl) as (rest & Hd & Hr & Hl).
    exists rest. cbn [Pathlib.drop String.length].
    split; [exact Hd|]. split; [exact Hr | lia].
  - destruct (Ascii.eqb a c) eqn:Ha; [|discriminate H]. injection H as <-.
    apply Ascii.eqb_eq in Ha. subst a.
    exists s. cbn [Pathlib.drop String.length].
    split; [reflexivity|]. split; [exact Hj | lia].
Qed.

Lemma rfind_append_None (c : ascii) (a b : string) :
  Pathlib.rfind c a = None -> Pathlib.rfind c b = None ->
  Pathlib.rfind c (a +:+ b) = None.
Proof.
  induction a as [|x a IH]; intros Ha Hb; [exact Hb|].
  apply rfind_cons_None in Ha as [Hx Ha].
  change (String x a +:+ b) with (String x (a +:+ b)).
  apply rfind_cons_None. auto.
Qed.

Lemma drop_decompose (i : nat) (s : string) :
  (i <= String.length s)%nat ->
  exists stem, s = stem +:+ Pathlib.drop i s /\ String.length stem = i.
Proof.
  revert s. induction i as [|i IH]; intros s Hi.
  - exists "". split; reflexivity.
  - destruct s as [|a s]; [simpl in Hi; lia|].
    destruct (IH s) as (stem & Hs & Hl); [simpl in Hi; lia|].
    exists (String a stem). cbn [Pathlib.drop String.length]. split; [|lia].
    change (String a stem +:+ Pathlib.drop i s)
      with (String a (stem +:+ Pathlib.drop i s)).
    rewrite <- Hs. reflexivity.
Qed.

(** The reading of [suffix] that the proofs below use: empty, or the
    part of the name from the index of its last ["."] on, which is
    neither the first nor the last position. *)
Lemma suffix_cases (p : string) :
  Pathlib.suffix p = ""
  \/ exists i,
       Pathlib.rfind "."%char (Pathlib.name p) = Some i
       /\ (0 < i)%nat /\ (i + 1 < String.length (Pathlib.name p))%nat
       /\ Pathlib.suffix p = Pathlib.drop i (Pathlib.name p).
Proof.
  unfold Pathlib.suffix.
  destruct (Pathlib.rfind "."%char (Pathlib.name p)) as [i|]; [|left; reflexivity].
  destruct (Z.ltb_spec 0 (Z.of_nat i)),
           (Z.ltb_spec (Z.of_nat i) (Z.of_nat (String.length (Pathlib.name p)) - 1));
    cbn [andb]; try (left; reflexivity).
  right. exists i. split; [reflexivity|]. split; [lia|]. split; [lia | reflexivity].
Qed.

Lemma suffix_no_sep (p : string) :
  Pathlib.rfind "/"%char (Pathlib.suffix p) = None.
Proof.
  destruct (suffix_cases p) as [E|(i & _ & _ & _ & E)]; rewrite E.
  - reflexivity.
  - apply rfind_drop_None, name_no_sep.
Qed.

(** X18. The extension never contains a path separator, whatever the
    client put in the original name: it is cut from the final path
    component only. *)
Theorem suffix_has_no_separator (p : string) :
  Pathlib.rfind "/"%char (Pathlib.suffix p) = None
  /\ Pathlib.rfind "/"%char (Pathlib.name p) = None.
Proof. split; [apply suffix_no_sep | apply name_no_sep]. Qed.

(** X19. The extension is empty, or a single ["."] followed by a
    non-empty text without ["."]: at most the last of several extensions
    is kept, and a bare trailing ["."] is not an extension. *)
Theorem suffix_shape (p : string) :
  Pathlib.suffix p = ""
  \/ exists ext,
       Pathlib.suffix p = String "."%char ext
       /\ ext <> ""
       /\ Pathlib.rfind "."%char ext = None.
Proof.
  destruct (suffix_cases p) as [E|(i & Hi & Hpos & Hlt & E)]; [left; exact E|].
  right. destruct (rfind_Some_drop _ _ _ Hi) as (rest & Hd & Hr & Hl).
  exists rest. rewrite E, Hd. split; [reflexivity|]. split; [|exact Hr].
  intros ->. simpl in Hl. lia.
Qed.

(** X20. The extension is the end of the final path component, and a
    non-empty extension leaves a non-empty stem before it: a name such as
    [".bashrc"] has no extension. *)
Theorem name_ends_with_suffix (p : string) :
  exists stem,
    Pathlib.name p = stem +:+ Pathlib.suffix p
    /\ (Pathlib.suffix p <> "" -> stem <> "").
Proof.
  destruct (suffix_cases p) as [E|(i & Hi & Hpos & Hlt & E)]; rewrite E.
  - exists (Pathlib.name p). split; [|congruence].
    induction (Pathlib.name p) as [|a s IH]; [reflexivity|].
    change (String a s +:+ "") with (String a (s +:+ "")). rewrite <- IH. reflexivity.
  - destruct (drop_decompose i (Pathlib.name p)) as (stem & Hs & Hl); [lia|].
    exists stem. split; [exact Hs|]. intros _ ->. simpl in Hl. lia.
Qed.

(** X21. If the token has no path separator, neither has the storage
    name of any request, so the one file a request may write or unlink
    lies directly in the upload directory. *)
Theorem storage_name_has_no_separator (env : Env) (req : Request) (k : string) :
  Pathlib.rfind "/"%char (uuid4 env) = None ->
  target_name env req = Some k ->
  Pathlib.rfind "/"%char k = None.
Proof.
  intros Htok Hk. destruct req as [[f|]|]; try discriminate Hk.
  simpl in Hk. destruct (filename f) as [n|]; [|discriminate Hk].
  injection Hk as <-. unfold storage_name.
  apply rfind_append_None; [exact Htok | apply suffix_no_sep].
Qed.

Lemma storage_name_has_no_separator_witness :
  Pathlib.rfind "/"%char "tok.bak" = None.
Proof.
  apply (storage_name_has_no_separator env0
           (POST_upload_document
              (Some (mkUploadFile (Some "../../etc/shadow.bak") [Byte.x00])))
           "tok.bak").
  - reflexivity.
  - reflexivity.
Defined.

(** ** Order of effects *)

(** X22. A commit is always preceded, in the same request, by the
    complete write of the file the committed row names: whenever a request
    commits, it is an upload, it commits exactly its own row, and its
    events start with the opening of the session, the write of the whole
    payload under the storage name, and the commit. *)
Theorem commit_only_after_write (env : Env) (req : Request) (w : World)
    (rows : list models.File) :
  Committed rows ∈ new_events w (snd (app env req w)) ->
  exists f n rest,
    req = POST_upload_document (Some f) /\ named f n
    /\ rows = [inserted_row env w f n]
    /\ new_events w (snd (app env req w))
       = SessionOpened :: FileWritten (storage_name env n) (file f)
           :: Committed rows :: rest.
Proof.
  unfold new_events.
  destruct (request_cases env req w) as [[resp E]|(f & n & p & Ef & Hnamed & Hp & E)];
    rewrite E.
  - run. rewrite drop_app_length. intros Hin.
    repeat (apply elem_of_cons in Hin as [Hin|Hin]; [discriminate Hin|]).
    inversion Hin.
  - destruct p; unfold path_result, failure; run; rewrite drop_app_length;
      intros Hin;
      repeat (apply elem_of_cons in Hin as [Hin|Hin];
              [first [discriminate Hin
                     | injection Hin as ->; exists f, n; eexists;
                       repeat split; [exact Ef | apply Hnamed | apply Hnamed]]|]);
      inversion Hin.
Qed.

Lemma commit_only_after_write_witness :
  exists f n rest,
    POST_upload_document (Some report) = POST_upload_document (Some f)
    /\ named f n
    /\ [inserted_row env0 w0 report "report.pdf"] = [inserted_row env0 w0 f n]
    /\ new_events w0 (snd (app env0 (POST_upload_document (Some report)) w0))
       = SessionOpened :: FileWritten (storage_name env0 n) (file f)
           :: Committed [inserted_row env0 w0 report "report.pdf"] :: rest.
Proof.
  apply (commit_only_after_write env0 (POST_upload_document (Some report)) w0
           [inserted_row env0 w0 report "report.pdf"]).
  vm_compute. set_solver.
Defined.
